(** * obsidian-scholar: the note reader, the template renderer and the
      artifact writer of [src/obsidianScholar.ts]

    The development embeds the class [ObsidianScholar] shallowly.

    - JavaScript strings are sequences of UTF-16 code units.  They are
      modelled by [string], one [ascii] per code unit, which covers the
      strings whose code units are below 256.  The only places where the
      source looks at individual code units are the character class
      [[^a-zA-Z0-9 ]], the line terminators excluded by [.] and the
      characters [{], [}], [[], []], [$], [,]: all of them below 256
      except the line terminators U+2028 and U+2029.
    - Regular expressions are modelled by matchers: a function that tells,
      for the text that starts at the current position, how long the match
      that starts there is and what its capture groups hold.
    - Front-matter values are JavaScript values ([jsval]); the front-matter
      itself is a finite map from keys to values.
    - The vault is a finite map from paths to files and folders; the
      methods that touch it run in a small state-and-exception monad. *)

From Stdlib Require Import ZArith Ascii String.
From stdpp Require Import base option list strings gmap.

(** ** Strings *)

Module Str.

Definition LF : ascii := "010"%char.
Definition CR : ascii := "013"%char.

(** The line terminators that [.] does not match (those below 256). *)
Definition is_line_terminator (c : ascii) : bool :=
  Ascii.eqb c LF || Ascii.eqb c CR.

(** [s.startsWith(p)] *)
Fixpoint starts_with (p s : string) {struct p} : bool :=
  match p with
  | EmptyString => true
  | String a p' =>
      match s with
      | EmptyString => false
      | String b s' => Ascii.eqb a b && starts_with p' s'
      end
  end.

(** [hay.includes(needle)] *)
Fixpoint includes (needle hay : string) {struct hay} : bool :=
  starts_with needle hay ||
  match hay with
  | EmptyString => false
  | String _ hay' => includes needle hay'
  end.

Fixpoint drop (n : nat) (s : string) : string :=
  match n, s with
  | S n', String _ s' => drop n' s'
  | _, _ => s
  end.

Fixpoint take (n : nat) (s : string) : string :=
  match n, s with
  | S n', String c s' => String c (take n' s')
  | _, _ => EmptyString
  end.

Definition snoc (s : string) (c : ascii) : string :=
  s +:+ String c EmptyString.

(** [l.join(sep)] on an array of strings *)
Definition join (sep : string) (l : list string) : string :=
  String.concat sep l.

(** [s.split(sep)] for a separator of one code unit *)
Fixpoint split_from (sep : ascii) (cur s : string) : list string :=
  match s with
  | EmptyString => [cur]
  | String c s' =>
      if Ascii.eqb c sep then cur :: split_from sep EmptyString s'
      else split_from sep (snoc cur c) s'
  end.

Definition split (sep : ascii) (s : string) : list string :=
  split_from sep EmptyString s.

(** Number of positions of [hay] at which [needle] starts. *)
Fixpoint occurrences (needle hay : string) {struct hay} : nat :=
  (if starts_with needle hay then 1 else 0) +
  match hay with
  | EmptyString => 0
  | String _ hay' => occurrences needle hay'
  end.

(** Every code unit of [s] satisfies [P]. *)
Fixpoint all (P : ascii → bool) (s : string) : bool :=
  match s with
  | EmptyString => true
  | String c s' => P c && all P s'
  end.

Fixpoint filter (P : ascii → bool) (s : string) : string :=
  match s with
  | EmptyString => EmptyString
  | String c s' => if P c then String c (filter P s') else filter P s'
  end.

End Str.

(** ** Regular expressions and [String.prototype.replace] *)

Module Regex.

(** What a regular expression matches at the head of a text: the length
    of the match and the capture groups. *)
Definition matcher := string → option (nat * list string).

(** A pattern without operators, such as [/{{title}}/]. *)
Definition lit (p : string) : matcher := λ s,
  if Str.starts_with p s then Some (String.length p, []) else None.

(** A character class, such as [/[^a-zA-Z0-9 ]/]. *)
Definition class (P : ascii → bool) : matcher := λ s,
  match s with
  | String c _ => if P c then Some (1, []) else None
  | EmptyString => None
  end.

(** [(.*?)] followed by the literal [close] at the end of a pattern: the
    shortest run of code units other than line terminators after which
    [close] follows. *)
Fixpoint lazy_dots_until (close s : string) {struct s} : option string :=
  if Str.starts_with close s then Some EmptyString
  else match s with
       | EmptyString => None
       | String c s' =>
           if Str.is_line_terminator c then None
           else String c <$> lazy_dots_until close s'
       end.

(** [/open(.*?)close/] for literals [open] and [close]. *)
Definition lit_lazy_lit (open close : string) : matcher := λ s,
  if Str.starts_with open s then
    cap ← lazy_dots_until close (Str.drop (String.length open) s);
    Some (String.length open + String.length cap + String.length close, [cap])
  else None.

(** [regex.exec(s)] / [s.match(regex)] without the [g] flag: the
    leftmost match, as the array of the matched text and the captures. *)
Fixpoint exec (m : matcher) (s : string) {struct s} : option (list string) :=
  match m s with
  | Some (n, caps) => Some (Str.take n s :: caps)
  | None =>
      match s with
      | EmptyString => None
      | String _ s' => exec m s'
      end
  end.

(** The replacement of one match: it receives the matched text, the
    captures, the text before the match and the text after it. *)
Definition replacer := string → list string → string → string → string.

(** [GetSubstitution] for a pattern without capture groups: [$$], [$&],
    [$`] and [$'] are expanded, every other [$] stands for itself. *)
Fixpoint GetSubstitution (matched before after tpl : string) {struct tpl}
    : string :=
  match tpl with
  | EmptyString => EmptyString
  | String c r =>
      if Ascii.eqb c "$"%char then
        match r with
        | EmptyString => String c EmptyString
        | String d r' =>
            if Ascii.eqb d "$"%char then
              String "$"%char (GetSubstitution matched before after r')
            else if Ascii.eqb d "&"%char then
              matched +:+ GetSubstitution matched before after r'
            else if Ascii.eqb d "`"%char then
              before +:+ GetSubstitution matched before after r'
            else if Ascii.eqb d "'"%char then
              after +:+ GetSubstitution matched before after r'
            else String c (GetSubstitution matched before after r)
        end
      else String c (GetSubstitution matched before after r)
  end.

(** A replacement given as a string (of a pattern without groups). *)
Definition by_string (tpl : string) : replacer := λ matched _ before after,
  GetSubstitution matched before after tpl.

(** A replacement given as a function [(_, group1) => f(group1)]. *)
Definition by_group1 (f : string → string) : replacer := λ _ caps _ _,
  f (default EmptyString (caps !! 0%nat)).

(** [s.replace(regex, r)] with the [g] flag.  [skip] counts the code
    units of the current match still to be passed over, [before] is the
    text to the left of the current position. *)
Fixpoint replace_from (m : matcher) (r : replacer) (skip : nat)
    (before s : string) {struct s} : string :=
  match s with
  | EmptyString =>
      match skip, m EmptyString with
      | 0%nat, Some (_, caps) => r EmptyString caps before EmptyString
      | _, _ => EmptyString
      end
  | String c s' =>
      match skip with
      | S k => replace_from m r k (Str.snoc before c) s'
      | 0%nat =>
          match m s with
          | Some (0%nat, caps) =>
              r EmptyString caps before s +:+
              String c (replace_from m r 0 (Str.snoc before c) s')
          | Some (S n, caps) =>
              r (Str.take (S n) s) caps before (Str.drop (S n) s) +:+
              replace_from m r n (Str.snoc before c) s'
          | None => String c (replace_from m r 0 (Str.snoc before c) s')
          end
      end
  end.

Definition replace_all (m : matcher) (r : replacer) (s : string) : string :=
  replace_from m r 0 EmptyString s.

(** [s.replace(pat, tpl)] for a string [pat]: only the first occurrence
    is replaced. *)
Fixpoint replace_first_from (pat tpl before s : string) {struct s} : string :=
  if Str.starts_with pat s then
    let after := Str.drop (String.length pat) s in
    GetSubstitution pat before after tpl +:+ after
  else match s with
       | EmptyString => EmptyString
       | String c s' =>
           String c (replace_first_from pat tpl (Str.snoc before c) s')
       end.

Definition replace_first (pat tpl s : string) : string :=
  replace_first_from pat tpl EmptyString s.

End Regex.

(** ** The paper record *)

(** [StructuredPaperData]; the fields marked [?] in the type are options. *)
Record StructuredPaperData := {
  title : string;
  authors : list string;
  abstract : string;
  url : string;
  venue : option string;
  publicationDate : option string;
  tags : option (list string);
  pdfPath : option string;
  pdfUrl : option string;
  citekey : option string;
  bibtex : option string;
}.

(** ** [constructFileName] *)

Definition is_upper (c : ascii) : bool :=
  (65 <=? nat_of_ascii c)%nat && (nat_of_ascii c <=? 90)%nat.
Definition is_lower (c : ascii) : bool :=
  (97 <=? nat_of_ascii c)%nat && (nat_of_ascii c <=? 122)%nat.
Definition is_digit (c : ascii) : bool :=
  (48 <=? nat_of_ascii c)%nat && (nat_of_ascii c <=? 57)%nat.

(** The class [[a-zA-Z0-9 ]]. *)
Definition filename_char (c : ascii) : bool :=
  is_lower c || is_upper c || is_digit c || Ascii.eqb c " "%char.

(** [paperData.title.replace(/[^a-zA-Z0-9 ]/g, "")] *)
Definition constructFileName (paperData : StructuredPaperData) : string :=
  Regex.replace_all (Regex.class (λ c, negb (filename_char c)))
                    (Regex.by_string EmptyString) (title paperData).

(** ** JavaScript values and the front-matter of a note *)

#[warnings="-register-all"]
Inductive jsval :=
  | VUndefined
  | VNull
  | VBool (b : bool)
  | VNum (n : Z)
  | VStr (s : string)
  | VArr (l : list jsval).

(** What a method can throw, or a promise be rejected with. *)
Inductive exn :=
  | TypeError (what : string)
  | Rejected (reason : string)
  | VaultError (what : string).

Inductive outcome (A : Type) :=
  | Return (a : A)
  | Throw (e : exn).
Arguments Return {A} a.
Arguments Throw {A} e.

Record TFile := { path : string; basename : string }.

Record CachedMetadata := { frontmatter : option (gmap string jsval) }.

(** [frontmatter?.key] *)
Definition optional_get (fm : option (gmap string jsval)) (key : string) : jsval :=
  match fm with
  | None => VUndefined
  | Some o => default VUndefined (o !! key)
  end.

(** [v ?? d] *)
Definition nullish_or (v d : jsval) : jsval :=
  match v with
  | VUndefined | VNull => d
  | _ => v
  end.

(** What [getPaperDataFromLocalFile] returns.  The fields that the method
    copies from the front-matter hold whatever value the front-matter has. *)
Record LocalPaperData := {
  local_title : jsval;
  local_authors : list string;
  local_abstract : jsval;
  local_url : jsval;
  local_venue : jsval;
  local_publicationDate : jsval;
  local_tags : jsval;
  local_pdfPath : jsval;
  local_citekey : jsval;
}.

(** [/\[\[(.*?)\]\]/] *)
Definition link_wrapper : Regex.matcher := Regex.lit_lazy_lit "[[" "]]".

(** [pdfPath.match(/\[\[(.*?)\]\]/)[1]]: only a string has [match]; the
    index [1] of [null] is a [TypeError]. *)
Definition match_link (pdfPath : jsval) : outcome jsval :=
  match pdfPath with
  | VStr s =>
      match Regex.exec link_wrapper s with
      | Some arr => Return (default VUndefined (VStr <$> arr !! 1%nat))
      | None => Throw (TypeError "Cannot read properties of null")
      end
  | VUndefined | VNull => Throw (TypeError "Cannot read properties of undefined")
  | _ => Throw (TypeError "match is not a function")
  end.

(** [frontmatter?.authors.split(",") ?? []]: the chain stops at an absent
    [frontmatter] only; [split] is then called on whatever [authors] is. *)
Definition split_authors (fm : option (gmap string jsval)) : outcome (list string) :=
  match fm with
  | None => Return []
  | Some o =>
      match default VUndefined (o !! "authors") with
      | VStr s => Return (Str.split ","%char s)
      | VUndefined | VNull => Throw (TypeError "Cannot read properties of undefined")
      | _ => Throw (TypeError "split is not a function")
      end
  end.

Definition getPaperDataFromLocalFile
    (getFileCache : TFile → option CachedMetadata) (file : TFile)
    : outcome LocalPaperData :=
  let fileCache := getFileCache file in
  let frontmatter := fileCache ≫= frontmatter in
  let pdfPath := nullish_or (optional_get frontmatter "pdf") (VStr "") in
  match match_link pdfPath with
  | Throw e => Throw e
  | Return pdfPath =>
      match split_authors frontmatter with
      | Throw e => Throw e
      | Return authors =>
          Return {|
            local_title := nullish_or (optional_get frontmatter "title") (VStr (basename file));
            local_authors := authors;
            local_abstract := nullish_or (optional_get frontmatter "abstract") (VStr "");
            local_url := nullish_or (optional_get frontmatter "url") (VStr "");
            local_venue := nullish_or (optional_get frontmatter "venue") (VStr "");
            local_publicationDate := nullish_or (optional_get frontmatter "year") (VStr "");
            local_tags := nullish_or (optional_get frontmatter "tags") (VArr []);
            local_pdfPath := pdfPath;
            local_citekey := nullish_or (optional_get frontmatter "citekey") (VStr "");
          |}
      end
  end.

(** ** The template renderer *)

(** A string that is falsy ([undefined], [null] or [""]) or truthy. *)
Definition truthy (o : option string) : option string :=
  match o with
  | Some s => if decide (s = "") then None else Some s
  | None => None
  end.

(** [value.replace("\n", " ")]: the pattern is a string, not a regular
    expression with the [g] flag. *)
Definition collapse_newline (s : string) : string :=
  Regex.replace_first (String Str.LF "") " " s.

Section Render.

(** [getDate] of [./utility]: the text of the current date in a format. *)
Variable getDate : string → string.

(** The chain of replacements of [createFileWithTemplate], on the text of
    the template that the method has read. *)
Definition fill_template (template : string) (paperData : StructuredPaperData) : string :=
  let template := Regex.replace_all (Regex.lit "{{date}}")
                    (Regex.by_string (getDate "YYYY-MM-DD")) template in
  let template := Regex.replace_all (Regex.lit "{{time}}")
                    (Regex.by_string (getDate "HH:mm")) template in
  let template := Regex.replace_all (Regex.lit_lazy_lit "{{date:" "}}")
                    (Regex.by_group1 getDate) template in
  let template := Regex.replace_all (Regex.lit_lazy_lit "{{time:" "}}")
                    (Regex.by_group1 getDate) template in
  let template := Regex.replace_all (Regex.lit "{{title}}")
                    (Regex.by_string (collapse_newline (title paperData))) template in
  let template := Regex.replace_all (Regex.lit "{{authors}}")
                    (Regex.by_string (collapse_newline (Str.join ", " (authors paperData)))) template in
  let template := Regex.replace_all (Regex.lit "{{abstract}}")
                    (Regex.by_string (collapse_newline (abstract paperData))) template in
  let template := Regex.replace_all (Regex.lit "{{url}}")
                    (Regex.by_string
                       (match truthy (Some (url paperData)) with
                        | Some u => collapse_newline u
                        | None => ""
                        end)) template in
  let template := Regex.replace_all (Regex.lit "{{venue}}")
                    (Regex.by_string
                       (match truthy (venue paperData) with
                        | Some v => collapse_newline v
                        | None => ""
                        end)) template in
  let template := Regex.replace_all (Regex.lit "{{publicationDate}}")
                    (Regex.by_string
                       (match truthy (publicationDate paperData) with
                        | Some d => collapse_newline d
                        | None => ""
                        end)) template in
  let template := Regex.replace_all (Regex.lit "{{tags}}")
                    (Regex.by_string
                       (match tags paperData with
                        | Some t => Str.join ", " t
                        | None => ""
                        end)) template in
  let template := Regex.replace_all (Regex.lit "{{pdf}}")
                    (Regex.by_string
                       (match truthy (pdfPath paperData) with
                        | Some p => "[[" +:+ p +:+ "]]"
                        | None => ""
                        end)) template in
  match truthy (citekey paperData) with
  | Some k => Regex.replace_all (Regex.lit "{{citekey}}") (Regex.by_string k) template
  | None => template
  end.

End Render.

(** ** The vault and the host application *)

(** What a path of the vault holds: [TFile] or [TFolder]. *)
Inductive node :=
  | File (content : string)
  | Folder.

(** What the host application is asked to do, in the order of the calls. *)
Inductive event :=
  | Notice (message : string)
  | OpenLinkText (linktext : string)
  | SplitLeaf
  | OpenFile (file : option string)   (* not awaited *)
  | RequestUrl (url : string).

(** The files of the vault and the calls made so far.  The index of the
    vault ([getAbstractFileByPath]) and the adapter ([adapter.exists],
    [adapter.read]) look at the same files. *)
Record World := {
  files : gmap string node;
  log : list event;
}.

(** A method of the class: it reads and changes the world and returns or
    throws (an [async] method: its promise is fulfilled or rejected). *)
Definition M (A : Type) : Type := World → outcome A * World.

Definition ret {A} (a : A) : M A := λ w, (Return a, w).
Definition throw {A} (e : exn) : M A := λ w, (Throw e, w).
Definition bind {A B} (c : M A) (k : A → M B) : M B := λ w,
  match c w with
  | (Return a, w') => k a w'
  | (Throw e, w') => (Throw e, w')
  end.
(** [c.then(...).catch(h)] *)
Definition catch {A} (c : M A) (h : exn → M A) : M A := λ w,
  match c w with
  | (Return a, w') => (Return a, w')
  | (Throw e, w') => h e w'
  end.

Notation "'let*' x ':=' c 'in' k" := (bind c (λ x, k))
  (at level 10, x pattern, c at level 100, k at level 200).
Notation "c ';;' k" := (bind c (λ _, k))
  (at level 100, k at level 200, right associativity).

Definition emit (e : event) : M () := λ w,
  (Return (), {| files := files w; log := log w ++ [e] |}).

Definition exn_message (e : exn) : string :=
  match e with
  | TypeError what => "TypeError: " +:+ what
  | Rejected reason => reason
  | VaultError what => "Error: " +:+ what
  end.

Module Vault.

(** [app.vault.adapter.exists(path)] *)
Definition exists_ (p : string) : M bool := λ w,
  (Return (bool_decide (is_Some (files w !! p))), w).

(** [app.vault.adapter.read(path)] and [app.vault.cachedRead(file)] *)
Definition read (p : string) : M string := λ w,
  match files w !! p with
  | Some (File c) => (Return c, w)
  | _ => (Throw (VaultError "cannot read"), w)
  end.

(** [app.vault.getAbstractFileByPath(path)] *)
Definition getAbstractFileByPath (p : string) : M (option node) := λ w,
  (Return (files w !! p), w).

(** [app.vault.create(path, data)] and [app.vault.createBinary(path, data)]:
    refused when the path is taken. *)
Definition create (p data : string) : M () := λ w,
  match files w !! p with
  | Some _ => (Throw (VaultError "File already exists."), w)
  | None => (Return (), {| files := <[p := File data]> (files w); log := log w |})
  end.

(** [app.vault.append(file, data)] *)
Definition append (p data : string) : M () := λ w,
  match files w !! p with
  | Some (File c) =>
      (Return (), {| files := <[p := File (c +:+ data)]> (files w); log := log w |})
  | _ => (Throw (VaultError "cannot append"), w)
  end.

End Vault.

Record ObsidianScholarPluginSettings := {
  NoteLocation : string;
  pdfDownloadLocation : string;
  templateFileLocation : string;
  saveBibTex_enabled : bool;
  bibTexFileLocation : string;
  openPdfAfterDownload : bool;
}.

Record ObsidianScholar := {
  settings : ObsidianScholarPluginSettings;
  pathSep : string;
}.

Definition NL2 : string := String Str.LF (String Str.LF "").

(** An append to a file that was started and has not landed yet. *)
Record started := {
  started_path : string;
  started_data : string;
}.

Section Methods.

(** Of [./utility] and [./constants]. *)
Variable getDate : string → string.
Variable NOTE_TEMPLATE_DEFAULT : string.
Variable FILE_ALREADY_EXISTS : string.
(** What a GET of a URL answers, if it answers. *)
Variable network : string → option string.

Variable this : ObsidianScholar.

(** [requestUrl({url, method: "GET"}).arrayBuffer] *)
Definition requestUrl (u : string) : M string :=
  emit (RequestUrl u) ;;
  match network u with
  | Some body => ret body
  | None => throw (Rejected "request failed")
  end.

Definition createFileWithTemplate (paperData : StructuredPaperData) : M string :=
  let* templateFile :=
    Vault.getAbstractFileByPath (templateFileLocation (settings this)) in
  let* template :=
    match templateFile with
    | Some (File _) => Vault.read (templateFileLocation (settings this))
    | _ => ret NOTE_TEMPLATE_DEFAULT
    end in
  ret (fill_template getDate template paperData).

Definition createFileFromPaperData
    (paperData : StructuredPaperData) (pathToFile : string) : M () :=
  let* template := createFileWithTemplate paperData in
  let* found := Vault.exists_ pathToFile in
  (if found : bool then
     emit (Notice FILE_ALREADY_EXISTS) ;;
     emit (OpenLinkText pathToFile)
   else
     Vault.create pathToFile template ;;
     emit (OpenLinkText pathToFile)) ;;
  if openPdfAfterDownload (settings this) then
    emit SplitLeaf ;;
    match truthy (pdfPath paperData) with
    | Some p =>
        let* f := Vault.getAbstractFileByPath p in
        emit (OpenFile (match f with Some (File _) => Some p | _ => None end))
    | None => ret ()
    end
  else ret ().

Definition downloadPdf (pdfUrl : option string) (filename : string) : M string :=
  match truthy pdfUrl with
  | None => throw (Rejected "pdfUrl is undefined or null")
  | Some pdfUrl =>
      let pdfDownloadFolder := pdfDownloadLocation (settings this) in
      let pdfSavePath :=
        pdfDownloadFolder +:+ pathSep this +:+ filename +:+ ".pdf" in
      let* found := Vault.exists_ pdfSavePath in
      if found : bool then ret pdfSavePath
      else
        let* arrayBuffer := requestUrl pdfUrl in
        Vault.create pdfSavePath arrayBuffer ;;
        ret pdfSavePath
  end.

(** [saveBibTex] together with the landing of the append that it starts.
    The method does not await the promise of [append]: it returns with the
    write in flight.  This definition is the run in which the write lands
    before anything else happens: [saveBibTex_call], the method up to its
    return, followed by [land] (lemma [saveBibTex_lands]). *)
Definition saveBibTex (bibtex : string) : M () :=
  if negb (saveBibTex_enabled (settings this)) then ret ()
  else
    let bibTexPath := bibTexFileLocation (settings this) in
    if decide (bibTexPath = "") then
      emit (Notice "BibTex location is not set in the settings.")
    else
      let bibtexText := "" in
      let* found := Vault.exists_ bibTexPath in
      let* present :=
        (if found : bool then
           (* this [bibtexText] is a new variable of the inner block *)
           let* bibtexText := Vault.read bibTexPath in
           ret (Str.includes bibtex bibtexText)
         else ret false) in
      if present : bool then emit (Notice "BibTex entry already exists.")
      else
        let* bibtextFile := Vault.getAbstractFileByPath bibTexPath in
        match bibtextFile with
        | Some (File _) =>
            catch
              (Vault.append bibTexPath (bibtex +:+ NL2 +:+ bibtexText) ;;
               emit (Notice "BibTex entry saved."))
              (λ error, emit (Notice ("Error: " +:+ exn_message error)))
        | _ => emit (Notice "BibTex file not found.")
        end.

Definition with_pdfPath (paperData : StructuredPaperData) (p : string)
    : StructuredPaperData :=
  {| title := title paperData; authors := authors paperData;
     abstract := abstract paperData; url := url paperData;
     venue := venue paperData; publicationDate := publicationDate paperData;
     tags := tags paperData; pdfPath := Some p; pdfUrl := pdfUrl paperData;
     citekey := citekey paperData; bibtex := bibtex paperData |}.

(** [downloadAndSavePaperNotePDF] together with the landing of the append
    that its [saveBibTex] starts (lemma [downloadAndSavePaperNotePDF_lands]);
    [downloadAndSavePaperNotePDF_call] is the method up to its return. *)
Definition downloadAndSavePaperNotePDF (paperData : StructuredPaperData) : M () :=
  let paperFilename := constructFileName paperData in
  let* paperData :=
    match truthy (pdfUrl paperData) with
    | None =>
        emit (Notice "No pdf url found. You might need to find the PDF manually.") ;;
        ret paperData
    | Some u =>
        let* p := downloadPdf (Some u) paperFilename in
        ret (with_pdfPath paperData p)
    end in
  let pathToFile :=
    NoteLocation (settings this) +:+ pathSep this +:+ paperFilename +:+ ".md" in
  createFileFromPaperData paperData pathToFile ;;
  match truthy (bibtex paperData) with
  | Some b => saveBibTex b
  | None => ret ()
  end.

(** The landing of an append that was started: the write, and the
    callbacks [then] and [catch] of its promise. *)
Definition land (a : started) : M () :=
  catch
    (Vault.append (started_path a) (started_data a) ;;
     emit (Notice "BibTex entry saved."))
    (λ error, emit (Notice ("Error: " +:+ exn_message error))).

Definition land_if (a : option started) : M () :=
  match a with
  | Some a => land a
  | None => ret ()
  end.

(** [saveBibTex] up to its return.  The append of lines 181 to 188 is
    started and not awaited; the value returned here is that append, in
    flight when the method returns (the method itself returns nothing). *)
Definition saveBibTex_call (bibtex : string) : M (option started) :=
  if negb (saveBibTex_enabled (settings this)) then ret None
  else
    let bibTexPath := bibTexFileLocation (settings this) in
    if decide (bibTexPath = "") then
      emit (Notice "BibTex location is not set in the settings.") ;; ret None
    else
      let bibtexText := "" in
      let* found := Vault.exists_ bibTexPath in
      let* present :=
        (if found : bool then
           (* this [bibtexText] is a new variable of the inner block *)
           let* bibtexText := Vault.read bibTexPath in
           ret (Str.includes bibtex bibtexText)
         else ret false) in
      if present : bool then
        emit (Notice "BibTex entry already exists.") ;; ret None
      else
        let* bibtextFile := Vault.getAbstractFileByPath bibTexPath in
        match bibtextFile with
        | Some (File _) =>
            ret (Some {| started_path := bibTexPath;
                         started_data := bibtex +:+ NL2 +:+ bibtexText |})
        | _ => emit (Notice "BibTex file not found.") ;; ret None
        end.

(** [downloadAndSavePaperNotePDF] up to its return, with the append of
    [saveBibTex] that is in flight then. *)
Definition downloadAndSavePaperNotePDF_call (paperData : StructuredPaperData)
    : M (option started) :=
  let paperFilename := constructFileName paperData in
  let* paperData :=
    match truthy (pdfUrl paperData) with
    | None =>
        emit (Notice "No pdf url found. You might need to find the PDF manually.") ;;
        ret paperData
    | Some u =>
        let* p := downloadPdf (Some u) paperFilename in
        ret (with_pdfPath paperData p)
    end in
  let pathToFile :=
    NoteLocation (settings this) +:+ pathSep this +:+ paperFilename +:+ ".md" in
  createFileFromPaperData paperData pathToFile ;;
  match truthy (bibtex paperData) with
  | Some b => saveBibTex_call b
  | None => ret None
  end.

End Methods.

(** ** Inputs of the examples *)

Definition paper_titled (t : string) : StructuredPaperData :=
  {| title := t; authors := []; abstract := ""; url := ""; venue := None;
     publicationDate := None; tags := None; pdfPath := None; pdfUrl := None;
     citekey := None; bibtex := None |}.

Definition reader_file : TFile :=
  {| path := "Papers/GPT4 Technical Report.md"; basename := "GPT4 Technical Report" |}.

(** A note whose front-matter has a well-formed [pdf] link and no [authors]. *)
Definition note_without_authors : CachedMetadata :=
  {| frontmatter := Some (<["title" := VStr "GPT-4 Technical Report"]>
                           (<["pdf" := VStr "[[pdfs/GPT4 Technical Report.pdf]]"]> ∅)) |}.

(** A note whose front-matter has [authors] and no [pdf]. *)
Definition note_without_pdf : CachedMetadata :=
  {| frontmatter := Some (<["title" := VStr "GPT-4 Technical Report"]>
                           (<["authors" := VStr "OpenAI"]> ∅)) |}.

Definition bib_settings : ObsidianScholarPluginSettings :=
  {| NoteLocation := "Papers"; pdfDownloadLocation := "pdfs";
     templateFileLocation := "template.md"; saveBibTex_enabled := true;
     bibTexFileLocation := "references.bib"; openPdfAfterDownload := false |}.

Definition scholar : ObsidianScholar :=
  {| settings := bib_settings; pathSep := "/" |}.

Definition vault_of (fs : gmap string node) : World :=
  {| files := fs; log := [] |}.

(** The number of occurrences of an entry in the BibTeX file (none when
    there is no such file). *)
Definition bib_occurrences (this : ObsidianScholar) (bibtex : string) (w : World) : nat :=
  match files w !! bibTexFileLocation (settings this) with
  | Some (File c) => Str.occurrences bibtex c
  | _ => 0
  end.

Definition entry_knuth : string := "@book{knuth, title={TAOCP}}".
Definition entry_turing : string := "@article{turing, title={On Computable Numbers}}".

(** ** Templates made of text and tokens *)

Inductive token :=
  | TTitle | TAuthors | TAbstract | TUrl | TVenue | TPublicationDate | TTags
  | TPdf | TCitekey.

Definition token_text (t : token) : string :=
  match t with
  | TTitle => "{{title}}"
  | TAuthors => "{{authors}}"
  | TAbstract => "{{abstract}}"
  | TUrl => "{{url}}"
  | TVenue => "{{venue}}"
  | TPublicationDate => "{{publicationDate}}"
  | TTags => "{{tags}}"
  | TPdf => "{{pdf}}"
  | TCitekey => "{{citekey}}"
  end.

(** The metadata tokens of section 4.3. *)
Definition metadata_token (t : token) : bool :=
  match t with
  | TPdf | TCitekey => false
  | _ => true
  end.

Definition all_tokens : list token :=
  [TTitle; TAuthors; TAbstract; TUrl; TVenue; TPublicationDate; TTags; TPdf; TCitekey].

(** The value that stands for a token in the rendered note; [None] when
    the token is left in place. *)
Definition token_value (p : StructuredPaperData) (t : token) : option string :=
  match t with
  | TTitle => Some (collapse_newline (title p))
  | TAuthors => Some (collapse_newline (Str.join ", " (authors p)))
  | TAbstract => Some (collapse_newline (abstract p))
  | TUrl => Some (from_option collapse_newline "" (truthy (Some (url p))))
  | TVenue => Some (from_option collapse_newline "" (truthy (venue p)))
  | TPublicationDate =>
      Some (from_option collapse_newline "" (truthy (publicationDate p)))
  | TTags => Some (from_option (Str.join ", ") "" (tags p))
  | TPdf => Some (from_option (λ f, "[[" +:+ f +:+ "]]") "" (truthy (pdfPath p)))
  | TCitekey => truthy (citekey p)
  end.

(** No opening brace in a text. *)
Definition no_brace (s : string) : bool :=
  Str.all (λ c, negb (Ascii.eqb c "{"%char)) s.

(** Neither an opening brace nor a dollar sign in a text. *)
Definition plain (s : string) : bool :=
  Str.all (λ c, negb (Ascii.eqb c "{"%char) && negb (Ascii.eqb c "$"%char)) s.

(** One replacement of the chain of [fill_template]: the token [t] by its
    value, if it has one. *)
Definition replace_token (p : StructuredPaperData) (t : token) (s : string) : string :=
  match token_value p t with
  | Some v => Regex.replace_all (Regex.lit (token_text t)) (Regex.by_string v) s
  | None => s
  end.

(** The four replacements of dates and times that come first. *)
Definition replace_dates (getDate : string → string) (s : string) : string :=
  let s := Regex.replace_all (Regex.lit ("{{" +:+ "date" +:+ "}}"))
             (Regex.by_string (getDate "YYYY-MM-DD")) s in
  let s := Regex.replace_all (Regex.lit ("{{" +:+ "time" +:+ "}}"))
             (Regex.by_string (getDate "HH:mm")) s in
  let s := Regex.replace_all (Regex.lit_lazy_lit ("{{" +:+ "date" +:+ ":") "}}")
             (Regex.by_group1 getDate) s in
  Regex.replace_all (Regex.lit_lazy_lit ("{{" +:+ "time" +:+ ":") "}}")
    (Regex.by_group1 getDate) s.

Definition attention : StructuredPaperData :=
  {| title := "Attention Is All You Need"; authors := ["A"; "B"];
     abstract := "The dominant sequence transduction models"; url := "";
     venue := None; publicationDate := Some "2017"; tags := None;
     pdfPath := None; pdfUrl := None; citekey := None; bibtex := None |}.

Definition with_title (p : StructuredPaperData) (t : string) : StructuredPaperData :=
  {| title := t; authors := authors p; abstract := abstract p; url := url p;
     venue := venue p; publicationDate := publicationDate p; tags := tags p;
     pdfPath := pdfPath p; pdfUrl := pdfUrl p; citekey := citekey p;
     bibtex := bibtex p |}.

Definition with_abstract (p : StructuredPaperData) (a : string) : StructuredPaperData :=
  {| title := title p; authors := authors p; abstract := a; url := url p;
     venue := venue p; publicationDate := publicationDate p; tags := tags p;
     pdfPath := pdfPath p; pdfUrl := pdfUrl p; citekey := citekey p;
     bibtex := bibtex p |}.

Definition with_tags (p : StructuredPaperData) (t : list string) : StructuredPaperData :=
  {| title := title p; authors := authors p; abstract := abstract p; url := url p;
     venue := venue p; publicationDate := publicationDate p; tags := Some t;
     pdfPath := pdfPath p; pdfUrl := pdfUrl p; citekey := citekey p;
     bibtex := bibtex p |}.

(** ["a\nb\nc"] *)
Definition three_lines : string :=
  "a" +:+ String Str.LF ("b" +:+ String Str.LF "c").

Definition note_path : string := "Papers/GPT4 Technical Report.md".

(** A vault with a note, its PDF and a BibTeX file. *)
Definition vault_with_note : World :=
  vault_of (<[note_path := File "my notes"]>
            (<["pdfs/GPT4 Technical Report.pdf" := File "%PDF-1.5"]>
             (<["references.bib" := File entry_knuth]> ∅))).

(** ** The rest of the class *)

(** [array.map(f)] for a callback that may throw: the first exception
    ends the traversal. *)
Fixpoint map_outcome {A B : Type} (f : A → outcome B) (l : list A)
    : outcome (list B) :=
  match l with
  | [] => Return []
  | x :: l' =>
      match f x with
      | Throw e => Throw e
      | Return y =>
          match map_outcome f l' with
          | Throw e => Throw e
          | Return ys => Return (y :: ys)
          end
      end
  end.

(** [getAllLocalPaperData], for the markdown files of the vault. *)
Definition getAllLocalPaperData
    (getMarkdownFiles : list TFile) (getFileCache : TFile → option CachedMetadata)
    (this : ObsidianScholar) : outcome (list LocalPaperData) :=
  map_outcome (getPaperDataFromLocalFile getFileCache)
    (List.filter (λ file, Str.starts_with (NoteLocation (settings this)) (path file))
       getMarkdownFiles).

(** The [pdfSavePath] of [downloadPdf]. *)
Definition pdfSavePath (this : ObsidianScholar) (filename : string) : string :=
  pdfDownloadLocation (settings this) +:+ pathSep this +:+ filename +:+ ".pdf".


(** The text of the template that [createFileWithTemplate] renders. *)
Definition template_text (NOTE_TEMPLATE_DEFAULT : string) (this : ObsidianScholar)
    (w : World) : string :=
  match files w !! templateFileLocation (settings this) with
  | Some (File c) => c
  | _ => NOTE_TEMPLATE_DEFAULT
  end.

(** The states of the vault in which [saveBibTex] has nothing to write. *)
Definition bib_settled (this : ObsidianScholar) (bibtex : string)
    (fs : gmap string node) : Prop :=
  saveBibTex_enabled (settings this) = false ∨
  bibTexFileLocation (settings this) = "" ∨
  fs !! bibTexFileLocation (settings this) = None ∨
  ∃ c, fs !! bibTexFileLocation (settings this) = Some (File c) ∧
       Str.includes bibtex c = true.

(** The files [fs'] keep what [fs] has: every file and folder other than
    the file at [bib] is the same, and the file at [bib] has its content
    in front of what was added. *)
Definition grows (bib : string) (fs fs' : gmap string node) : Prop :=
  ∀ q n, fs !! q = Some n →
    match n with
    | File c =>
        if decide (q = bib) then ∃ added, fs' !! q = Some (File (c +:+ added))
        else fs' !! q = Some n
    | Folder => fs' !! q = Some n
    end.

(** Inputs of the examples of the writer. *)
Definition attention_remote : StructuredPaperData :=
  {| title := "Attention Is All You Need!"; authors := ["A"; "B"];
     abstract := "The dominant sequence transduction models";
     url := "https://arxiv.org/abs/1706.03762"; venue := None;
     publicationDate := Some "2017"; tags := None; pdfPath := None;
     pdfUrl := Some "https://arxiv.org/pdf/1706.03762"; citekey := None;
     bibtex := Some entry_turing |}.

Definition network_up : string → option string := λ _, Some "%PDF-1.5 attention".
Definition network_down : string → option string := λ _, None.

Definition vault_with_bib : World :=
  vault_of (<["references.bib" := File entry_knuth]> ∅).

Definition note_template : string := "# {{title}} by {{authors}}".

(** [vault_with_bib] after the download of the PDF, the creation of the
    note, and the whole of [downloadAndSavePaperNotePDF]. *)
Definition vault_after_download : World :=
  (downloadPdf network_up scholar (pdfUrl attention_remote)
     "Attention Is All You Need" vault_with_bib).2.

Definition vault_after_note : World :=
  (createFileFromPaperData (λ format, format) note_template "File already exists"
     scholar attention_remote "Papers/Attention Is All You Need.md" vault_with_bib).2.



(** A vault with a folder where the BibTeX file is expected. *)
Definition vault_with_bib_folder : World :=
  vault_of (<["references.bib" := Folder]> ∅).

(** ** Templates made of text and date tokens *)

Inductive date_segment :=
  | DText (s : string)
  | DDate
  | DTime
  | DDateAs (format : string)
  | DTimeAs (format : string).

Definition date_segment_text (g : date_segment) : string :=
  match g with
  | DText s => s
  | DDate => "{{date}}"
  | DTime => "{{time}}"
  | DDateAs format => "{{date:" +:+ format +:+ "}}"
  | DTimeAs format => "{{time:" +:+ format +:+ "}}"
  end.

(** What stands for a date token in the rendered note. *)
Definition render_date_segment (getDate : string → string) (g : date_segment) : string :=
  match g with
  | DText s => s
  | DDate => getDate "YYYY-MM-DD"
  | DTime => getDate "HH:mm"
  | DDateAs format | DTimeAs format => getDate format
  end.

Fixpoint flatten_dates (f : date_segment → string) (segs : list date_segment) : string :=
  match segs with
  | [] => ""
  | g :: segs' => f g +:+ flatten_dates f segs'
  end.

(** A format without braces and line terminators. *)
Definition format_ok (format : string) : bool :=
  Str.all (λ c, negb (Ascii.eqb c "{"%char) && negb (Ascii.eqb c "}"%char)
                && negb (Str.is_line_terminator c)) format.

(** The text has no opening brace, the formats are without braces and
    line terminators, and the dates they give have no opening brace (and no
    dollar sign where the date is passed as a replacement string). *)
Definition date_segment_ok (getDate : string → string) (g : date_segment) : bool :=
  match g with
  | DText s => no_brace s
  | DDate => plain (getDate "YYYY-MM-DD")
  | DTime => plain (getDate "HH:mm")
  | DDateAs format | DTimeAs format => format_ok format && no_brace (getDate format)
  end.

(** The effect of each of the four replacements of dates on a segment. *)
Definition date_step (getDate : string → string) (n : nat) (g : date_segment)
    : date_segment :=
  match n, g with
  | 0, DDate => DText (getDate "YYYY-MM-DD")
  | 1, DTime => DText (getDate "HH:mm")
  | 2, DDateAs format => DText (getDate format)
  | 3, DTimeAs format => DText (getDate format)
  | _, _ => g
  end.

(** A clock for the examples: the format stands for the date. *)
Definition example_clock (format : string) : string :=
  "<" +:+ format +:+ ">".

(** ** Templates made of text and of pieces between braces *)

(** The name between the braces of a token. *)
Definition token_name (t : token) : string :=
  match t with
  | TTitle => "title"
  | TAuthors => "authors"
  | TAbstract => "abstract"
  | TUrl => "url"
  | TVenue => "venue"
  | TPublicationDate => "publicationDate"
  | TTags => "tags"
  | TPdf => "pdf"
  | TCitekey => "citekey"
  end.

(** A template as a sequence of pieces: text, and [{{body}}] for any
    body, whether the renderer knows it or not. *)
Inductive piece :=
  | PText (s : string)
  | PBraced (body : string).

Definition piece_text (g : piece) : string :=
  match g with
  | PText s => s
  | PBraced body => "{{" +:+ body +:+ "}}"
  end.

Fixpoint flatten_pieces (f : piece → string) (pieces : list piece) : string :=
  match pieces with
  | [] => ""
  | g :: pieces' => f g +:+ flatten_pieces f pieces'
  end.

(** Neither an opening nor a closing brace in a text. *)
Definition no_braces (s : string) : bool :=
  Str.all (λ c, negb (Ascii.eqb c "{"%char) && negb (Ascii.eqb c "}"%char)) s.

(** Every opening brace of a text is followed, in the text, by a code
    unit other than an opening brace. *)
Fixpoint lone_braces (s : string) : bool :=
  match s with
  | EmptyString => true
  | String c s' =>
      (negb (Ascii.eqb c "{"%char) ||
       match s' with
       | String d _ => negb (Ascii.eqb d "{"%char)
       | EmptyString => false
       end) && lone_braces s'
  end.

(** No dollar sign of a text is followed by a dollar sign, an ampersand,
    a backquote or a quote: as a replacement string the text stands for
    itself. *)
Fixpoint no_dollar_pattern (s : string) : bool :=
  match s with
  | EmptyString => true
  | String c s' =>
      (negb (Ascii.eqb c "$"%char) ||
       match s' with
       | String d _ =>
           negb (Ascii.eqb d "$"%char || Ascii.eqb d "&"%char
                 || Ascii.eqb d "`"%char || Ascii.eqb d "'"%char)
       | EmptyString => true
       end) && no_dollar_pattern s'
  end.

(** The format of the body [name:FORMAT], when [.] matches every code
    unit of the format. *)
Definition format_of (name body : string) : option string :=
  if Str.starts_with (name +:+ ":") body then
    let format := Str.drop (String.length (name +:+ ":")) body in
    if Str.all (λ c, negb (Str.is_line_terminator c)) format then Some format
    else None
  else None.

(** The replacements of [fill_template], in their order. *)
Inductive rule :=
  | RDate
  | RTime
  | RDateAs
  | RTimeAs
  | RToken (t : token).

Definition all_rules : list rule :=
  [RDate; RTime; RDateAs; RTimeAs] ++ map RToken all_tokens.

Definition replace_rule (getDate : string → string) (p : StructuredPaperData)
    (k : rule) (s : string) : string :=
  match k with
  | RDate =>
      Regex.replace_all (Regex.lit "{{date}}")
        (Regex.by_string (getDate "YYYY-MM-DD")) s
  | RTime =>
      Regex.replace_all (Regex.lit "{{time}}") (Regex.by_string (getDate "HH:mm")) s
  | RDateAs =>
      Regex.replace_all (Regex.lit_lazy_lit "{{date:" "}}") (Regex.by_group1 getDate) s
  | RTimeAs =>
      Regex.replace_all (Regex.lit_lazy_lit "{{time:" "}}") (Regex.by_group1 getDate) s
  | RToken t => replace_token p t s
  end.

(** The replacements whose replacement is a string, in which [$$], [$&],
    [$`] and [$'] are patterns; the others compute it by a function. *)
Definition by_replacement_string (k : rule) : bool :=
  match k with
  | RDateAs | RTimeAs => false
  | _ => true
  end.

(** What a replacement puts in the place of [{{body}}], if it matches
    it. *)
Definition rule_value (getDate : string → string) (p : StructuredPaperData)
    (k : rule) (body : string) : option string :=
  match k with
  | RDate => if String.eqb body "date" then Some (getDate "YYYY-MM-DD") else None
  | RTime => if String.eqb body "time" then Some (getDate "HH:mm") else None
  | RDateAs => getDate <$> format_of "date" body
  | RTimeAs => getDate <$> format_of "time" body
  | RToken t => if String.eqb body (token_name t) then token_value p t else None
  end.

(** The value of the first of the replacements [ks] that matches
    [{{body}}]. *)
Fixpoint first_value (getDate : string → string) (p : StructuredPaperData)
    (ks : list rule) (body : string) : option string :=
  match ks with
  | [] => None
  | k :: ks' =>
      match rule_value getDate p k body with
      | Some v => Some v
      | None => first_value getDate p ks' body
      end
  end.

(** What stands for a piece in the rendered note: the value of a date
    token or of a token of the paper, and the piece itself when it is text,
    when the renderer does not know its body, or when it is [{{citekey}}]
    and the citekey is empty. *)
Definition render_piece (getDate : string → string) (p : StructuredPaperData)
    (g : piece) : string :=
  match g with
  | PText s => s
  | PBraced body => default (piece_text g) (first_value getDate p all_rules body)
  end.

(** A value that is put in the place of a token by the replacement [k]. *)
Definition value_ok (k : rule) (v : string) : bool :=
  lone_braces v && (negb (by_replacement_string k) || no_dollar_pattern v).

(** The pieces of the templates that are rendered piece by piece: in a
    text, no opening brace is followed by another or ends the text; between
    the braces of [{{body}}] there is no brace; and the value that stands
    for [{{body}}], if there is one, is as [value_ok] says.  Nothing is
    asked of the values of the tokens that do not occur. *)
Definition piece_ok (getDate : string → string) (p : StructuredPaperData)
    (g : piece) : bool :=
  match g with
  | PText s => lone_braces s
  | PBraced body =>
      no_braces body &&
      forallb (λ k, from_option (value_ok k) true (rule_value getDate p k body))
        all_rules
  end.

(** The effect of a replacement on a piece. *)
Definition sub_piece (val : string → option string) (g : piece) : piece :=
  match g with
  | PText s => PText s
  | PBraced body =>
      match val body with
      | Some v => PText v
      | None => PBraced body
      end
  end.

(** The effect of the replacements [ks], one after the other, on a
    piece. *)
Definition sub_pieces (getDate : string → string) (p : StructuredPaperData)
    (ks : list rule) (g : piece) : piece :=
  foldl (λ g k, sub_piece (rule_value getDate p k) g) g ks.

(** ["# {{title}} {read {{date}}} {{citekey}} {{rating}}"] *)
Definition dated_template : list piece :=
  [PText "# "; PBraced "title"; PText " {read "; PBraced "date"; PText "} ";
   PBraced "citekey"; PText " "; PBraced "rating"].

(** Inputs of the examples of the reader. *)
Definition note_well_formed : CachedMetadata :=
  {| frontmatter :=
       Some (<["authors" := VStr "A, B"]>
             (<["pdf" := VStr "pdf: [[pdfs/Attention Is All You Need.pdf]] (local)"]> ∅)) |}.

(** ** The search modal ([paperSearchModal]) *)

(** [toLowerCase] on a code unit below 256: the capital letters [A]-[Z]
    and the capital letters of Latin-1 (U+00C0 to U+00DE, but not the
    multiplication sign U+00D7) are 32 below their small letters; every
    other code unit below 256 is kept. *)
Definition to_lower_char (c : ascii) : ascii :=
  let n := nat_of_ascii c in
  if ((65 <=? n)%nat && (n <=? 90)%nat)
     || ((192 <=? n)%nat && (n <=? 222)%nat && negb (n =? 215)%nat)
  then ascii_of_nat (n + 32)
  else c.

(** [s.toLowerCase()] on a string whose code units are all below 256
    (Latin-1).  On such a string no rule of [toLowerCase] looks at the
    neighbours of a code unit or changes the length (the final sigma and
    the dotted capital I are above 255), so the result is the string of
    the lower-case code units.  Strings with other code units are outside
    this definition. *)
Fixpoint toLowerCase (s : string) : string :=
  match s with
  | EmptyString => EmptyString
  | String c s' => String (to_lower_char c) (toLowerCase s')
  end.

(** [PaperSearchModelResult], by its [resultType]: ["local"] with the
    record the reader gave and the path of the note, or
    ["semanticscholar"] with the record of the search and its URL. *)
Inductive PaperSearchModelResult :=
  | LocalResult (paper : LocalPaperData) (localFilePath : string)
  | S2Result (paper : StructuredPaperData) (s2Url : string) (isFirstS2Result : bool).

(** [result.paper.title] and [result.paper.authors] *)
Definition result_title (result : PaperSearchModelResult) : jsval :=
  match result with
  | LocalResult paper _ => local_title paper
  | S2Result paper _ _ => VStr (title paper)
  end.

Definition result_authors (result : PaperSearchModelResult) : list string :=
  match result with
  | LocalResult paper _ => local_authors paper
  | S2Result paper _ _ => authors paper
  end.

(** [array.filter(f)] for a callback that may throw. *)
Fixpoint filter_outcome {A : Type} (f : A → outcome bool) (l : list A)
    : outcome (list A) :=
  match l with
  | [] => Return []
  | x :: l' =>
      match f x with
      | Throw e => Throw e
      | Return keep =>
          match filter_outcome f l' with
          | Throw e => Throw e
          | Return xs => Return (if keep then x :: xs else xs)
          end
      end
  end.

(** The callback of [searchLocalPapers]: only a string has
    [toLowerCase]; [contains] is [includes]; the authors are looked at
    when the title does not match. *)
Definition matches_query (query : string) (result : PaperSearchModelResult)
    : outcome bool :=
  match result_title result with
  | VStr t =>
      Return (Str.includes (toLowerCase query) (toLowerCase t)
              || existsb (λ author, Str.includes (toLowerCase query) author)
                   (map toLowerCase (result_authors result)))
  | VUndefined | VNull => Throw (TypeError "Cannot read properties of undefined")
  | _ => Throw (TypeError "toLowerCase is not a function")
  end.

Record paperSearchModal := {
  localPaperData : list PaperSearchModelResult;
  lastSearch : string;
  lastSearchResults : list StructuredPaperData;
}.

Definition searchLocalPapers (modal : paperSearchModal) (query : string)
    : outcome (list PaperSearchModelResult) :=
  filter_outcome (matches_query query) (localPaperData modal).

(** [lastSearchResults.map((paper, index) => ...)] *)
Definition s2_results (papers : list StructuredPaperData) : list PaperSearchModelResult :=
  imap (λ index paper, S2Result paper (url paper) (Nat.eqb index 0)) papers.

Definition getSuggestions (modal : paperSearchModal) (query : string)
    : outcome (list PaperSearchModelResult) :=
  match searchLocalPapers modal query with
  | Throw e => Throw e
  | Return localResults =>
      Return (localResults ++
              (if decide (query = lastSearch modal)
               then s2_results (lastSearchResults modal)
               else []))
  end.

(** Whether [renderSuggestion] puts the heading of the Semantic Scholar
    results above a suggestion. *)
Definition has_heading (result : PaperSearchModelResult) : bool :=
  match result with
  | S2Result _ _ isFirstS2Result => isFirstS2Result
  | LocalResult _ _ => false
  end.

(** The local data of the modal, as its constructor builds them. *)
Definition local_results (getMarkdownFiles : list TFile)
    (getFileCache : TFile → option CachedMetadata) (this : ObsidianScholar)
    : outcome (list PaperSearchModelResult) :=
  map_outcome
    (λ file,
       match getPaperDataFromLocalFile getFileCache file with
       | Throw e => Throw e
       | Return paper => Return (LocalResult paper (path file))
       end)
    (List.filter (λ file, Str.starts_with (NoteLocation (settings this)) (path file))
       getMarkdownFiles).

Definition attention_local : PaperSearchModelResult :=
  LocalResult
    {| local_title := VStr "Attention Is All You Need";
       local_authors := ["Vaswani"; " Shazeer"];
       local_abstract := VStr ""; local_url := VStr ""; local_venue := VStr "";
       local_publicationDate := VNum 2017; local_tags := VArr [];
       local_pdfPath := VStr "pdfs/Attention Is All You Need.pdf";
       local_citekey := VStr "" |}
    "Papers/Attention Is All You Need.md".

Definition example_modal : paperSearchModal :=
  {| localPaperData := [attention_local];
     lastSearch := "attention";
     lastSearchResults := [attention; attention_remote] |}.

(** * Properties *)

(** ** Strings *)

#[local] Arguments String.append !_ _ /.
#[local] Arguments Ascii.eqb !_ !_ /.

Lemma length_append (a b : string) :
  String.length (a +:+ b) = String.length a + String.length b.
Proof. induction a as [|x a IH]; simpl; [done | by rewrite IH]. Qed.

Lemma starts_with_refl_app (p s : string) : Str.starts_with p (p +:+ s) = true.
Proof.
  induction p as [|a p IH]; simpl; [done|].
  by rewrite Ascii.eqb_refl, IH.
Qed.



(** ** [constructFileName] *)

Lemma replace_class_empty (P : ascii → bool) (before s : string) :
  Regex.replace_from (Regex.class P) (Regex.by_string "") 0 before s
  = Str.filter (λ c, negb (P c)) s.
Proof.
  revert before. induction s as [|c s IH]; intros before; simpl; [done|].
  destruct (P c); simpl; by rewrite IH.
Qed.

(** C9: the file name derived from a paper is its title without the code
    units outside [[A-Za-z0-9 ]] (spaces are kept); the title
    ["GPT-4: Technical Report!"] gives ["GPT4 Technical Report"]. *)
Theorem constructFileName_keeps_alphanumerics_and_spaces :
  (∀ paperData : StructuredPaperData,
     constructFileName paperData = Str.filter filename_char (title paperData)) ∧
  constructFileName (paper_titled "GPT-4: Technical Report!")
  = "GPT4 Technical Report".
Proof.
  split; [|reflexivity].
  intros paperData. unfold constructFileName, Regex.replace_all.
  rewrite replace_class_empty. generalize (title paperData) as s.
  induction s as [|c s IH]; simpl; [done|].
  rewrite negb_involutive, IH. done.
Qed.

(** ** The note reader *)

Lemma match_link_throws_TypeError (v : jsval) (e : exn) :
  match_link v = Throw e → ∃ what, e = TypeError what.
Proof.
  destruct v; simpl; try (intros [= <-]; eauto).
  destruct (Regex.exec link_wrapper s); intros [= <-]; eauto.
Qed.

Lemma lazy_dots_until_close (p rest : string) :
  Str.all (λ c, negb (Str.is_line_terminator c) && negb (Ascii.eqb c "]")) p = true →
  Regex.lazy_dots_until "]]" (p +:+ "]]" +:+ rest) = Some p.
Proof.
  induction p as [|c p IH]; simpl; [done|].
  intros [[Hlt Hc]%andb_true_iff Hp]%andb_true_iff.
  apply negb_true_iff in Hlt, Hc.
  rewrite Ascii.eqb_sym in Hc. rewrite Hc, Hlt. simpl.
  specialize (IH Hp). simpl in IH. by rewrite IH.
Qed.

(** A well-formed wrapper around a path without [[]]] and line terminators
    is stripped. *)
Lemma match_link_strips_wrapper (p : string) :
  Str.all (λ c, negb (Str.is_line_terminator c) && negb (Ascii.eqb c "]")) p = true →
  match_link (VStr ("[[" +:+ p +:+ "]]")) = Return (VStr p).
Proof.
  intros Hp. unfold match_link.
  assert (link_exec :
    Regex.exec link_wrapper ("[[" +:+ p +:+ "]]")
    = Some [Str.take (2 + String.length p + 2) ("[[" +:+ p +:+ "]]"); p]).
  { unfold link_wrapper, Regex.lit_lazy_lit. simpl.
    pose proof (lazy_dots_until_close p "" Hp) as H. simpl in H.
    by rewrite H. }
  by rewrite link_exec.
Qed.

(** The reader returns exactly for the notes whose front-matter has a
    [pdf] string with a link wrapper and an [authors] string. *)
Lemma reader_returns_iff (getFileCache : TFile → option CachedMetadata) (file : TFile) :
  (∃ d, getPaperDataFromLocalFile getFileCache file = Return d) ↔
  ∃ o s a, getFileCache file ≫= frontmatter = Some o ∧
           o !! "pdf" = Some (VStr s) ∧
           is_Some (Regex.exec link_wrapper s) ∧
           o !! "authors" = Some (VStr a).
Proof.
  unfold getPaperDataFromLocalFile, split_authors.
  destruct (getFileCache file ≫= frontmatter) as [o|]; simpl.
  - split.
    + intros [d Hd]. exists o.
      destruct (o !! "pdf") as [[| | | |s|]|]; simpl in Hd; try discriminate Hd.
      destruct (Regex.exec link_wrapper s) as [arr|] eqn:Harr; [|discriminate Hd].
      destruct (o !! "authors") as [[| | | |a|]|]; simpl in Hd; try discriminate Hd.
      exists s, a. rewrite Harr. eauto.
    + intros (o' & s & a & [= <-] & -> & [arr Harr] & ->). simpl.
      rewrite Harr. eauto.
  - split; [intros [d [=]] | intros (o & s & a & [=] & _)].
Qed.

(** C1: what the code does for a note whose front-matter omits [authors],
    or that has no front-matter: the reader throws a [TypeError]; it does
    not return a record with an empty sequence of authors. *)
Theorem reader_throws_without_authors
    (getFileCache : TFile → option CachedMetadata) (file : TFile) :
  optional_get (getFileCache file ≫= frontmatter) "authors" = VUndefined →
  ∃ what, getPaperDataFromLocalFile getFileCache file = Throw (TypeError what).
Proof.
  unfold getPaperDataFromLocalFile.
  destruct (getFileCache file ≫= frontmatter) as [o|]; simpl.
  - intros Ha.
    destruct (match_link _) as [v|e] eqn:Hm.
    + rewrite Ha. eauto.
    + apply match_link_throws_TypeError in Hm as [what ->]. eauto.
  - intros _. eauto.
Qed.

Lemma reader_throws_without_authors_witness :
  optional_get (Some note_without_authors ≫= frontmatter) "authors" = VUndefined ∧
  ∃ what, getPaperDataFromLocalFile (λ _, Some note_without_authors) reader_file
          = Throw (TypeError what).
Proof.
  split; [reflexivity|].
  apply (reader_throws_without_authors (λ _, Some note_without_authors) reader_file).
  reflexivity.
Defined.

(** C2: what the code does for a note without a [pdf] field (in
    particular one without front-matter): the reader throws the
    [TypeError] of indexing [null]; an absent [pdf] is not tolerated. *)
Theorem reader_throws_without_pdf
    (getFileCache : TFile → option CachedMetadata) (file : TFile) :
  optional_get (getFileCache file ≫= frontmatter) "pdf" = VUndefined →
  getPaperDataFromLocalFile getFileCache file
  = Throw (TypeError "Cannot read properties of null").
Proof.
  unfold getPaperDataFromLocalFile. intros ->. reflexivity.
Qed.

Lemma reader_throws_without_pdf_witness :
  optional_get (Some note_without_pdf ≫= frontmatter) "pdf" = VUndefined ∧
  getPaperDataFromLocalFile (λ _, Some note_without_pdf) reader_file
  = Throw (TypeError "Cannot read properties of null").
Proof.
  split; [reflexivity|].
  apply (reader_throws_without_pdf (λ _, Some note_without_pdf) reader_file).
  reflexivity.
Defined.

(** ** The artifact writer *)

Ltac run :=
  unfold bind, catch, ret, throw, emit, Vault.exists_, Vault.read,
    Vault.getAbstractFileByPath, Vault.create, Vault.append; simpl.

Section Writer.

Variable getDate : string → string.
Variable NOTE_TEMPLATE_DEFAULT : string.
Variable FILE_ALREADY_EXISTS : string.
Variable network : string → option string.
Variable this : ObsidianScholar.

Lemma createFileWithTemplate_returns (paperData : StructuredPaperData) (w : World) :
  ∃ template,
    createFileWithTemplate getDate NOTE_TEMPLATE_DEFAULT this paperData w
    = (Return template, w).
Proof.
  unfold createFileWithTemplate. run.
  destruct (files w !! templateFileLocation (settings this)) as [[c|]|] eqn:E;
    simpl; rewrite ?E; eauto.
Qed.

(** C7: when something exists at the target path, [createFileFromPaperData]
    returns without throwing, leaves every file of the vault as it is, and
    reports the conflict and opens the existing note. *)
Theorem createFileFromPaperData_keeps_existing_note
    (paperData : StructuredPaperData) (pathToFile : string) (w : World) :
  is_Some (files w !! pathToFile) →
  ∃ w' later,
    createFileFromPaperData getDate NOTE_TEMPLATE_DEFAULT FILE_ALREADY_EXISTS
      this paperData pathToFile w = (Return (), w') ∧
    files w' = files w ∧
    log w' = log w ++ Notice FILE_ALREADY_EXISTS :: OpenLinkText pathToFile :: later.
Proof.
  intros Hex. unfold createFileFromPaperData.
  destruct (createFileWithTemplate_returns paperData w) as [template Ht].
  unfold bind at 1. rewrite Ht. run.
  rewrite bool_decide_eq_true_2 by done. simpl.
  destruct (openPdfAfterDownload (settings this)); simpl.
  - destruct (truthy (pdfPath paperData)) as [p|]; simpl.
    + eexists _, _. split; [reflexivity|]. simpl. split; [done|].
      rewrite <- !app_assoc. simpl. reflexivity.
    + eexists _, _. split; [reflexivity|]. simpl. split; [done|].
      rewrite <- !app_assoc. simpl. reflexivity.
  - eexists _, []. split; [reflexivity|]. simpl. split; [done|].
    by rewrite <- !app_assoc.
Qed.

(** C8: for a URL that is given, when something exists at the save path
    [pdfDownloadLocation + pathSep + filename + ".pdf"], [downloadPdf]
    resolves with that path and leaves the world as it is: no request is
    made and no file changes. *)
Theorem downloadPdf_existing_file_is_kept
    (pdfUrl filename : string) (w : World) :
  pdfUrl ≠ "" →
  is_Some (files w !! (pdfDownloadLocation (settings this) +:+ pathSep this
                       +:+ filename +:+ ".pdf")) →
  downloadPdf network this (Some pdfUrl) filename w
  = (Return (pdfDownloadLocation (settings this) +:+ pathSep this
             +:+ filename +:+ ".pdf"), w).
Proof.
  intros Hurl Hex. unfold downloadPdf, truthy.
  destruct (decide (pdfUrl = "")) as [|_]; [done|].
  run. by rewrite bool_decide_eq_true_2.
Qed.

(** What [saveBibTex] does when the file holds the entry already. *)
Lemma saveBibTex_present (bibtex old : string) (w : World) :
  saveBibTex_enabled (settings this) = true →
  bibTexFileLocation (settings this) ≠ "" →
  files w !! bibTexFileLocation (settings this) = Some (File old) →
  Str.includes bibtex old = true →
  saveBibTex this bibtex w
  = (Return (), {| files := files w;
                   log := log w ++ [Notice "BibTex entry already exists."] |}).
Proof.
  intros Hen Hloc Hfile Hinc. unfold saveBibTex. rewrite Hen. simpl.
  destruct (decide _) as [|_]; [done|].
  run. repeat (rewrite Hfile; simpl). by rewrite Hinc.
Qed.

(** What [saveBibTex] does when the file does not hold the entry. *)
Lemma saveBibTex_fresh (bibtex old : string) (w : World) :
  saveBibTex_enabled (settings this) = true →
  bibTexFileLocation (settings this) ≠ "" →
  files w !! bibTexFileLocation (settings this) = Some (File old) →
  Str.includes bibtex old = false →
  saveBibTex this bibtex w
  = (Return (),
     {| files := <[bibTexFileLocation (settings this) := File (old +:+ bibtex +:+ NL2)]>
                   (files w);
        log := log w ++ [Notice "BibTex entry saved."] |}).
Proof.
  intros Hen Hloc Hfile Hinc. unfold saveBibTex. rewrite Hen. simpl.
  destruct (decide _) as [|_]; [done|].
  run. repeat (rewrite Hfile; simpl). rewrite Hinc. simpl.
  repeat (rewrite Hfile; simpl). reflexivity.
Qed.

(** C3: what the code does with an entry that the BibTeX file does not
    contain: the entry and two line feeds are added after the existing
    content of the file, not ahead of it. *)
Theorem saveBibTex_adds_entry_after_content (bibtex old : string) (w : World) :
  saveBibTex_enabled (settings this) = true →
  bibTexFileLocation (settings this) ≠ "" →
  files w !! bibTexFileLocation (settings this) = Some (File old) →
  Str.includes bibtex old = false →
  ∃ w', saveBibTex this bibtex w = (Return (), w') ∧
        files w' !! bibTexFileLocation (settings this)
        = Some (File (old +:+ bibtex +:+ NL2)).
Proof.
  intros Hen Hloc Hfile Hinc.
  rewrite (saveBibTex_fresh bibtex old w) by done.
  eexists. split; [reflexivity|]. simpl. apply lookup_insert_eq.
Qed.

(** What [saveBibTex] does when nothing exists at the BibTeX path. *)
Lemma saveBibTex_missing (bibtex : string) (w : World) :
  files w !! bibTexFileLocation (settings this) = None →
  (saveBibTex this bibtex w).1 = Return () ∧
  files (saveBibTex this bibtex w).2 = files w ∧
  (saveBibTex_enabled (settings this) = true →
   bibTexFileLocation (settings this) ≠ "" →
   log (saveBibTex this bibtex w).2 = log w ++ [Notice "BibTex file not found."]).
Proof.
  intros Hfile. unfold saveBibTex.
  destruct (saveBibTex_enabled (settings this)); simpl; [|by split_and!].
  destruct (decide _) as [Hloc|Hloc]; [by split_and!|].
  run. repeat (rewrite Hfile; simpl). by split_and!.
Qed.

(** A vault that [saveBibTex] changed had something at the BibTeX path
    before. *)
Corollary saveBibTex_change_needs_the_file (bibtex : string) (w : World) :
  files (saveBibTex this bibtex w).2 ≠ files w →
  is_Some (files w !! bibTexFileLocation (settings this)).
Proof.
  intros Hch. destruct (files w !! _) eqn:Hfile; [eauto|].
  destruct (saveBibTex_missing bibtex w Hfile) as (_ & ? & _).
  done.
Qed.

End Writer.

Lemma createFileFromPaperData_keeps_existing_note_witness :
  is_Some (files vault_with_note !! note_path) ∧
  ∃ w' later,
    createFileFromPaperData (λ format, format) "# {{title}}" "File already exists"
      scholar (paper_titled "GPT-4: Technical Report!") note_path vault_with_note
    = (Return (), w') ∧
    files w' = files vault_with_note ∧
    log w' = log vault_with_note
             ++ Notice "File already exists" :: OpenLinkText note_path :: later.
Proof.
  split; [by exists (File "my notes")|].
  apply (createFileFromPaperData_keeps_existing_note (λ format, format)
           "# {{title}}" "File already exists" scholar
           (paper_titled "GPT-4: Technical Report!") note_path vault_with_note).
  by exists (File "my notes").
Defined.

Lemma downloadPdf_existing_file_is_kept_witness :
  "https://arxiv.org/pdf/2303.08774" ≠ "" ∧
  is_Some (files vault_with_note !! "pdfs/GPT4 Technical Report.pdf") ∧
  downloadPdf (λ _, None) scholar (Some "https://arxiv.org/pdf/2303.08774")
    "GPT4 Technical Report" vault_with_note
  = (Return "pdfs/GPT4 Technical Report.pdf", vault_with_note).
Proof.
  split; [done|]. split; [by exists (File "%PDF-1.5")|].
  apply (downloadPdf_existing_file_is_kept (λ _, None) scholar
           "https://arxiv.org/pdf/2303.08774" "GPT4 Technical Report"
           vault_with_note); [done|].
  by exists (File "%PDF-1.5").
Defined.

Lemma saveBibTex_adds_entry_after_content_witness :
  files vault_with_note !! "references.bib" = Some (File entry_knuth) ∧
  Str.includes entry_turing entry_knuth = false ∧
  ∃ w', saveBibTex scholar entry_turing vault_with_note = (Return (), w') ∧
        files w' !! "references.bib"
        = Some (File (entry_knuth +:+ entry_turing +:+ NL2)).
Proof.
  split; [reflexivity|]. split; [reflexivity|].
  apply (saveBibTex_adds_entry_after_content scholar entry_turing entry_knuth
           vault_with_note); [reflexivity|done|reflexivity|reflexivity].
Defined.

(** ** The template renderer *)

Lemma GetSubstitution_plain (matched before after v : string) :
  plain v = true → Regex.GetSubstitution matched before after v = v.
Proof.
  unfold plain. induction v as [|c v IH]; simpl; [done|].
  intros [[_ Hd]%andb_true_iff Hv]%andb_true_iff.
  apply negb_true_iff in Hd. rewrite Hd. by rewrite IH.
Qed.

Lemma plain_no_brace (v : string) : plain v = true → no_brace v = true.
Proof.
  unfold plain, no_brace. induction v as [|c v IH]; simpl; [done|].
  intros [[-> _]%andb_true_iff Hv]%andb_true_iff. by apply IH.
Qed.

Section ReplaceText.

(** A global replacement whose pattern cannot begin at a code unit other
    than an opening brace passes over a text without opening braces. *)
Variable m : Regex.matcher.
Variable r : Regex.replacer.

Hypothesis m_text : ∀ c x, Ascii.eqb c "{" = false → m (String c x) = None.

Lemma replace_from_text (s x : string) :
  no_brace s = true →
  ∀ before, ∃ before',
    Regex.replace_from m r 0 before (s +:+ x)
    = s +:+ Regex.replace_from m r 0 before' x.
Proof.
  unfold no_brace. induction s as [|c s IH]; simpl; [eauto|].
  intros [Hc Hs]%andb_true_iff before. apply negb_true_iff in Hc.
  rewrite m_text by done.
  destruct (IH Hs (Str.snoc before c)) as [before' ->]. eauto.
Qed.

End ReplaceText.

Lemma starts_with_brace (p : string) (c : ascii) (x : string) :
  Ascii.eqb c "{" = false → Str.starts_with (String "{" p) (String c x) = false.
Proof. intros Hc. simpl. rewrite Ascii.eqb_sym in Hc. by rewrite Hc. Qed.

(** [fill_template] is the replacements of dates followed by one
    replacement per token, in the order of [all_tokens]. *)
Lemma fill_template_chain (getDate : string → string) (template : string)
    (p : StructuredPaperData) :
  fill_template getDate template p
  = foldl (λ s t, replace_token p t s) (replace_dates getDate template) all_tokens.
Proof. reflexivity. Qed.

(** Only the first line feed of a value becomes a space. *)
Lemma collapse_newline_first (a b : string) :
  Str.all (λ c, negb (Ascii.eqb c Str.LF)) a = true →
  collapse_newline (a +:+ String Str.LF b) = a +:+ String " " b.
Proof.
  unfold collapse_newline, Regex.replace_first, Str.LF. intros Ha.
  enough (H : ∀ before,
    Regex.replace_first_from (String "010" "") " " before (a +:+ String "010" b)
    = a +:+ String " " b) by apply H.
  induction a as [|c a IH]; intros before; simpl; [done|].
  simpl in Ha. apply andb_true_iff in Ha as [Hc Ha]. apply negb_true_iff in Hc.
  rewrite Ascii.eqb_sym in Hc. rewrite Hc. simpl. by rewrite IH.
Qed.

(** C4: what the code does with a value of several lines: only the first
    line feed of a title becomes a space, and the line feeds of tags are
    kept, so that not every embedded line feed is collapsed. *)
Theorem fill_template_collapses_first_newline_only (getDate : string → string) :
  fill_template getDate "{{title}}" (with_title attention three_lines)
  = "a b" +:+ String Str.LF "c" ∧
  fill_template getDate "{{tags}}" (with_tags attention [three_lines])
  = three_lines.
Proof. split; reflexivity. Qed.

(** C5 (as stated) fails: a title that holds [{{abstract}}] is scanned
    again by the replacement of [{{abstract}}]; an abstract that holds
    [{{title}}] leaves this token in the rendered note; and so does a
    template in which the value completes a token. *)
Lemma fill_template_scans_substituted_values :
  fill_template (λ format, format) "{{title}}" (with_title attention "{{abstract}}")
  = "The dominant sequence transduction models" ∧
  Str.includes "{{title}}"
    (fill_template (λ format, format) "{{abstract}}"
       (with_abstract attention "see {{title}}")) = true ∧
  Str.includes "{{title}}"
    (fill_template (λ format, format) "{{t{{title}}le}}"
       (with_title attention "it")) = true.
Proof. split_and!; reflexivity. Qed.

(** * Further properties of the class *)

(** ** The monad *)



Lemma bind_run {A B : Type} (c : M A) (k : A → M B) (w wm : World) (a : A) :
  c w = (Return a, wm) → bind c k w = k a wm.
Proof. unfold bind. by intros ->. Qed.

(** ** [downloadPdf] *)

Section Download.

Variable network : string → option string.
Variable this : ObsidianScholar.

(** Every way [downloadPdf] can go. *)
Lemma downloadPdf_cases (pdfUrl : option string) (filename : string) (w : World) :
  (truthy pdfUrl = None ∧
   downloadPdf network this pdfUrl filename w
   = (Throw (Rejected "pdfUrl is undefined or null"), w)) ∨
  (∃ u, truthy pdfUrl = Some u ∧
    ((is_Some (files w !! pdfSavePath this filename) ∧
      downloadPdf network this pdfUrl filename w
      = (Return (pdfSavePath this filename), w)) ∨
     (files w !! pdfSavePath this filename = None ∧ network u = None ∧
      downloadPdf network this pdfUrl filename w
      = (Throw (Rejected "request failed"),
         {| files := files w; log := log w ++ [RequestUrl u] |})) ∨
     (files w !! pdfSavePath this filename = None ∧
      ∃ body, network u = Some body ∧
        downloadPdf network this pdfUrl filename w
        = (Return (pdfSavePath this filename),
           {| files := <[pdfSavePath this filename := File body]> (files w);
              log := log w ++ [RequestUrl u] |})))).
Proof.
  unfold downloadPdf. fold (pdfSavePath this filename).
  destruct (truthy pdfUrl) as [u|]; [right; exists u; split; [done|] | by left].
  unfold requestUrl. run.
  destruct (files w !! pdfSavePath this filename) as [n|] eqn:Hfile.
  - left. rewrite bool_decide_eq_true_2 by eauto. eauto.
  - right. rewrite bool_decide_eq_false_2 by (by intros [? ?]). simpl.
    destruct (network u) as [body|]; simpl.
    + right. split; [done|]. exists body. rewrite Hfile. done.
    + left. done.
Qed.

(** X1: whatever [downloadPdf] is given, it keeps every file and folder
    of the vault as it is and touches no path other than the save path; a
    call that fails leaves the files unchanged, and a call that returns
    returns the save path, at which something then exists. *)
Theorem downloadPdf_only_adds_the_pdf
    (pdfUrl : option string) (filename : string) (w : World) :
  files w ⊆ files (downloadPdf network this pdfUrl filename w).2 ∧
  (∀ q, q ≠ pdfSavePath this filename →
        files (downloadPdf network this pdfUrl filename w).2 !! q = files w !! q) ∧
  (∀ e, (downloadPdf network this pdfUrl filename w).1 = Throw e →
        files (downloadPdf network this pdfUrl filename w).2 = files w) ∧
  (∀ p, (downloadPdf network this pdfUrl filename w).1 = Return p →
        p = pdfSavePath this filename ∧
        is_Some (files (downloadPdf network this pdfUrl filename w).2 !! p)).
Proof.
  destruct (downloadPdf_cases pdfUrl filename w)
    as [[_ ->] | (u & _ & [[Hex ->] | [(Hno & _ & ->) | (Hno & body & _ & ->)]])];
    simpl; split_and!; try done.
  - by intros p [= <-].
  - by apply insert_subseteq.
  - intros q Hq. by rewrite lookup_insert_ne.
  - intros p [= <-]. split; [done|]. rewrite lookup_insert_eq. eauto.
Qed.

(** X2: a second [downloadPdf] after one that returned makes no request
    and changes nothing: it returns the same path in the same world. *)
Theorem downloadPdf_again_is_skipped
    (pdfUrl : option string) (filename p : string) (w w1 : World) :
  downloadPdf network this pdfUrl filename w = (Return p, w1) →
  downloadPdf network this pdfUrl filename w1 = (Return p, w1).
Proof.
  intros H1.
  assert (Hp : p = pdfSavePath this filename ∧ is_Some (files w1 !! p)).
  { destruct (downloadPdf_cases pdfUrl filename w)
      as [[_ E] | (u & _ & [[Hex E] | [(Hno & _ & E) | (Hno & body & _ & E)]])];
      rewrite E in H1; try discriminate H1; injection H1 as <- <-;
      (split; [done|]); simpl; [done|].
    rewrite lookup_insert_eq. eauto. }
  destruct Hp as [-> Hex].
  destruct (downloadPdf_cases pdfUrl filename w1)
    as [[Ht E] | (u & _ & [[_ E] | [(Hno & _ & E) | (Hno & body & _ & E)]])];
    try done; try (rewrite Hno in Hex; by destruct Hex).
  destruct (downloadPdf_cases pdfUrl filename w)
    as [[_ E'] | (u & Ht' & _)]; [by rewrite E' in H1 | congruence].
Qed.

(** X3: when nothing was at the save path and [downloadPdf] returns, the
    URL was given, exactly one request was made, for that URL, and the file
    created at the returned path holds the body of the answer. *)
Theorem downloadPdf_saves_the_response
    (pdfUrl : option string) (filename p : string) (w w1 : World) :
  files w !! pdfSavePath this filename = None →
  downloadPdf network this pdfUrl filename w = (Return p, w1) →
  ∃ u body, truthy pdfUrl = Some u ∧ network u = Some body ∧
            files w1 = <[p := File body]> (files w) ∧
            log w1 = log w ++ [RequestUrl u].
Proof.
  intros Hno H1.
  destruct (downloadPdf_cases pdfUrl filename w)
    as [[_ E] | (u & Hu & [[Hex E] | [(_ & _ & E) | (_ & body & Hb & E)]])];
    rewrite E in H1; try discriminate H1.
  - rewrite Hno in Hex. by destruct Hex.
  - injection H1 as <- <-. by exists u, body.
Qed.

End Download.

(** ** [createFileWithTemplate] and [createFileFromPaperData] *)

Section CreateNote.

Variable getDate : string → string.
Variable NOTE_TEMPLATE_DEFAULT : string.
Variable FILE_ALREADY_EXISTS : string.
Variable this : ObsidianScholar.

Lemma createFileWithTemplate_value (paperData : StructuredPaperData) (w : World) :
  createFileWithTemplate getDate NOTE_TEMPLATE_DEFAULT this paperData w
  = (Return (fill_template getDate (template_text NOTE_TEMPLATE_DEFAULT this w) paperData), w).
Proof.
  unfold createFileWithTemplate, template_text. run.
  destruct (files w !! templateFileLocation (settings this)) as [[c|]|] eqn:E;
    simpl; rewrite ?E; done.
Qed.

(** Every way [createFileFromPaperData] can go. *)
Lemma createFileFromPaperData_cases
    (paperData : StructuredPaperData) (pathToFile : string) (w : World) :
  (is_Some (files w !! pathToFile) ∧ ∃ later,
     createFileFromPaperData getDate NOTE_TEMPLATE_DEFAULT FILE_ALREADY_EXISTS
       this paperData pathToFile w
     = (Return (),
        {| files := files w;
           log := log w ++ Notice FILE_ALREADY_EXISTS :: OpenLinkText pathToFile :: later |})) ∨
  (files w !! pathToFile = None ∧ ∃ later,
     createFileFromPaperData getDate NOTE_TEMPLATE_DEFAULT FILE_ALREADY_EXISTS
       this paperData pathToFile w
     = (Return (),
        {| files := <[pathToFile :=
                       File (fill_template getDate
                               (template_text NOTE_TEMPLATE_DEFAULT this w) paperData)]>
                      (files w);
           log := log w ++ OpenLinkText pathToFile :: later |})).
Proof.
  unfold createFileFromPaperData.
  rewrite (bind_run _ _ _ _ _ (createFileWithTemplate_value paperData w)).
  generalize (fill_template getDate (template_text NOTE_TEMPLATE_DEFAULT this w) paperData)
    as text.
  intros text. run.
  destruct (files w !! pathToFile) as [n|] eqn:Hfile.
  - left. split; [eauto|]. rewrite bool_decide_eq_true_2 by eauto. simpl.
    destruct (openPdfAfterDownload (settings this)); simpl.
    + destruct (truthy (pdfPath paperData)) as [p|]; simpl;
        eexists; rewrite <- !app_assoc; simpl; reflexivity.
    + exists []. by rewrite <- !app_assoc.
  - right. split; [done|]. rewrite bool_decide_eq_false_2 by (by intros [? ?]).
    simpl. rewrite Hfile. simpl.
    destruct (openPdfAfterDownload (settings this)); simpl.
    + destruct (truthy (pdfPath paperData)) as [p|]; simpl;
        eexists; rewrite <- !app_assoc; simpl; reflexivity.
    + by exists [].
Qed.

(** X4: [createFileFromPaperData] keeps every file and folder of the
    vault as it is, whatever the paper and the path, and touches no path
    other than the path of the note. *)
Theorem createFileFromPaperData_overwrites_nothing
    (paperData : StructuredPaperData) (pathToFile : string) (w : World) :
  files w ⊆ files (createFileFromPaperData getDate NOTE_TEMPLATE_DEFAULT
                     FILE_ALREADY_EXISTS this paperData pathToFile w).2 ∧
  ∀ q, q ≠ pathToFile →
       files (createFileFromPaperData getDate NOTE_TEMPLATE_DEFAULT
                FILE_ALREADY_EXISTS this paperData pathToFile w).2 !! q
       = files w !! q.
Proof.
  destruct (createFileFromPaperData_cases paperData pathToFile w)
    as [(_ & later & ->) | (Hno & later & ->)]; simpl.
  - done.
  - split; [by apply insert_subseteq|]. intros q Hq. by rewrite lookup_insert_ne.
Qed.

(** X5: when nothing is at the path and [createFileFromPaperData]
    returns, the note it created holds the rendering of the template: of
    the content of the template file if the template location is a file,
    of [NOTE_TEMPLATE_DEFAULT] otherwise; the note is then opened, and no
    conflict is reported. *)
Theorem createFileFromPaperData_writes_the_rendered_template
    (paperData : StructuredPaperData) (pathToFile : string) (w w1 : World) :
  files w !! pathToFile = None →
  createFileFromPaperData getDate NOTE_TEMPLATE_DEFAULT FILE_ALREADY_EXISTS
    this paperData pathToFile w = (Return (), w1) →
  files w1 !! pathToFile
  = Some (File (fill_template getDate
                  (match files w !! templateFileLocation (settings this) with
                   | Some (File c) => c
                   | _ => NOTE_TEMPLATE_DEFAULT
                   end) paperData)) ∧
  ∃ later, log w1 = log w ++ OpenLinkText pathToFile :: later.
Proof.
  intros Hno H1.
  destruct (createFileFromPaperData_cases paperData pathToFile w)
    as [([n Hn] & _) | (_ & later & E)]; [congruence|].
  rewrite E in H1. injection H1 as <-. simpl.
  split; [by rewrite lookup_insert_eq | eauto].
Qed.

(** X6: after a [createFileFromPaperData] that returned, a second call
    for the same path, with any paper, returns and writes nothing: at most
    one note is ever written to a path. *)
Theorem createFileFromPaperData_writes_once
    (paperData paperData' : StructuredPaperData) (pathToFile : string)
    (w w1 : World) :
  createFileFromPaperData getDate NOTE_TEMPLATE_DEFAULT FILE_ALREADY_EXISTS
    this paperData pathToFile w = (Return (), w1) →
  ∃ w2,
    createFileFromPaperData getDate NOTE_TEMPLATE_DEFAULT FILE_ALREADY_EXISTS
      this paperData' pathToFile w1 = (Return (), w2) ∧
    files w2 = files w1.
Proof.
  intros H1.
  assert (Hex : is_Some (files w1 !! pathToFile)).
  { destruct (createFileFromPaperData_cases paperData pathToFile w)
      as [(Hex & later & E) | (_ & later & E)];
      rewrite E in H1; injection H1 as <-; simpl; [done|].
    rewrite lookup_insert_eq. eauto. }
  destruct (createFileFromPaperData_cases paperData' pathToFile w1)
    as [(_ & later & ->) | (Hno & _)].
  - eauto.
  - rewrite Hno in Hex. by destruct Hex.
Qed.

End CreateNote.

(** ** [saveBibTex] *)

Lemma includes_empty (s : string) : Str.includes "" s = true.
Proof. by destruct s. Qed.

Lemma append_empty_r (s : string) : s +:+ "" = s.
Proof. induction s as [|c s IH]; simpl; [done | by rewrite IH]. Qed.

Lemma append_assoc (a b c : string) : (a +:+ b) +:+ c = a +:+ (b +:+ c).
Proof. induction a as [|x a IH]; simpl; [done | by rewrite IH]. Qed.

Section SaveBibTex.

Variable this : ObsidianScholar.

(** Every way [saveBibTex] can go, as far as the files are concerned. *)
Lemma saveBibTex_cases (bibtex : string) (w : World) :
  files (saveBibTex this bibtex w).2 = files w ∨
  ∃ old, files w !! bibTexFileLocation (settings this) = Some (File old) ∧
         Str.includes bibtex old = false ∧
         (saveBibTex this bibtex w).1 = Return () ∧
         files (saveBibTex this bibtex w).2
         = <[bibTexFileLocation (settings this) := File (old +:+ bibtex +:+ NL2)]>
             (files w).
Proof.
  destruct (saveBibTex_enabled (settings this)) eqn:Hen;
    [|left; unfold saveBibTex; by rewrite Hen].
  destruct (decide (bibTexFileLocation (settings this) = "")) as [Hloc|Hloc].
  { left. unfold saveBibTex. rewrite Hen. simpl. by destruct (decide _). }
  destruct (files w !! bibTexFileLocation (settings this)) as [[old|]|] eqn:Hfile.
  - destruct (Str.includes bibtex old) eqn:Hinc.
    + left. by rewrite (saveBibTex_present this bibtex old w).
    + right. exists old. by rewrite (saveBibTex_fresh this bibtex old w).
  - left. unfold saveBibTex. rewrite Hen. simpl.
    destruct (decide _) as [|_]; [done|].
    run. by repeat (rewrite Hfile; simpl).
  - left. by destruct (saveBibTex_missing this bibtex w Hfile) as (_ & ? & _).
Qed.

(** X7: [saveBibTex] touches no path other than the BibTeX path, and
    what it does to the BibTeX file is to add at its end: the content the
    file had is kept, in front. *)
Theorem saveBibTex_only_extends_the_file (bibtex : string) (w : World) :
  (∀ q, q ≠ bibTexFileLocation (settings this) →
        files (saveBibTex this bibtex w).2 !! q = files w !! q) ∧
  (∀ old, files w !! bibTexFileLocation (settings this) = Some (File old) →
          ∃ added, files (saveBibTex this bibtex w).2
                     !! bibTexFileLocation (settings this)
                   = Some (File (old +:+ added))).
Proof.
  destruct (saveBibTex_cases bibtex w) as [-> | (old & Hold & _ & _ & ->)].
  - split; [done|]. intros old ->. exists "". by rewrite append_empty_r.
  - split.
    + intros q Hq. by rewrite lookup_insert_ne.
    + intros old' Hold'. rewrite lookup_insert_eq.
      assert (old' = old) as -> by congruence. eauto.
Qed.

(** X8: an empty entry is never written: every text contains the empty
    text, so [saveBibTex] leaves the files as they are. *)
Theorem saveBibTex_empty_entry_writes_nothing (w : World) :
  files (saveBibTex this "" w).2 = files w.
Proof.
  destruct (saveBibTex_cases "" w) as [-> | (old & _ & Hinc & _)]; [done|].
  by rewrite includes_empty in Hinc.
Qed.

End SaveBibTex.

(** ** [downloadAndSavePaperNotePDF] *)

Lemma truthy_Some (o : option string) (u : string) :
  truthy o = Some u → truthy (Some u) = Some u.
Proof.
  destruct o as [s|]; simpl; [|done].
  destruct (decide (s = "")) as [|Hs]; [done|]. intros [= <-].
  by destruct (decide (s = "")).
Qed.

Lemma grows_refl (bib : string) (fs : gmap string node) : grows bib fs fs.
Proof.
  intros q [c|] Hq; [|done].
  destruct (decide (q = bib)); [|done]. exists "". by rewrite append_empty_r.
Qed.

Lemma grows_trans (bib : string) (fs1 fs2 fs3 : gmap string node) :
  grows bib fs1 fs2 → grows bib fs2 fs3 → grows bib fs1 fs3.
Proof.
  intros H12 H23 q [c|] Hq.
  - specialize (H12 q (File c) Hq). simpl in H12.
    destruct (decide (q = bib)) as [->|Hne].
    + destruct H12 as [a1 H12]. specialize (H23 bib _ H12). simpl in H23.
      destruct (decide (bib = bib)); [|done].
      destruct H23 as [a2 H23]. exists (a1 +:+ a2). by rewrite <- append_assoc.
    + specialize (H23 q _ H12). simpl in H23. by destruct (decide (q = bib)).
  - specialize (H12 q Folder Hq). by apply (H23 q Folder).
Qed.

Lemma grows_subseteq (bib : string) (fs fs' : gmap string node) :
  fs ⊆ fs' → grows bib fs fs'.
Proof.
  intros Hsub q n Hq. pose proof (lookup_weaken _ _ _ _ Hq Hsub) as Hq'.
  destruct n as [c|]; [|done].
  destruct (decide (q = bib)); [|done]. exists "". by rewrite append_empty_r.
Qed.

Lemma grows_bind {A B : Type} (bib : string) (c : M A) (k : A → M B) (w : World) :
  (∀ w, grows bib (files w) (files (c w).2)) →
  (∀ a w, grows bib (files w) (files (k a w).2)) →
  grows bib (files w) (files (bind c k w).2).
Proof.
  intros Hc Hk. unfold bind. specialize (Hc w).
  destruct (c w) as [[a|e] wm]; simpl in *; [|done].
  eapply grows_trans; [exact Hc | apply Hk].
Qed.

Section Pipeline.

Variable getDate : string → string.
Variable NOTE_TEMPLATE_DEFAULT : string.
Variable FILE_ALREADY_EXISTS : string.
Variable network : string → option string.
Variable this : ObsidianScholar.

Lemma saveBibTex_grows (bibtex : string) (w : World) :
  grows (bibTexFileLocation (settings this)) (files w)
    (files (saveBibTex this bibtex w).2).
Proof.
  destruct (saveBibTex_cases this bibtex w) as [-> | (old & Hold & _ & _ & ->)];
    [apply grows_refl|].
  intros q n Hq. destruct (decide (q = bibTexFileLocation (settings this))) as [->|Hne].
  - rewrite Hold in Hq. injection Hq as <-. simpl.
    rewrite lookup_insert_eq. eauto.
  - rewrite lookup_insert_ne by done. by destruct n.
Qed.

Lemma downloadPdf_subseteq (pdfUrl : option string) (filename : string) (w : World) :
  files w ⊆ files (downloadPdf network this pdfUrl filename w).2.
Proof.
  destruct (downloadPdf_cases network this pdfUrl filename w)
    as [[_ ->] | (u & _ & [[_ ->] | [(_ & _ & ->) | (Hno & body & _ & ->)]])];
    simpl; try done.
  by apply insert_subseteq.
Qed.

Lemma createFileFromPaperData_subseteq
    (paperData : StructuredPaperData) (pathToFile : string) (w : World) :
  files w ⊆ files (createFileFromPaperData getDate NOTE_TEMPLATE_DEFAULT
                     FILE_ALREADY_EXISTS this paperData pathToFile w).2.
Proof.
  destruct (createFileFromPaperData_cases getDate NOTE_TEMPLATE_DEFAULT
              FILE_ALREADY_EXISTS this paperData pathToFile w)
    as [(_ & later & ->) | (Hno & later & ->)]; simpl; [done|].
  by apply insert_subseteq.
Qed.

(** X9: when the PDF is not in the vault yet and the request for it
    fails, [downloadAndSavePaperNotePDF] fails after that one request: no
    note is created, nothing is opened or reported, and no file changes. *)
Theorem downloadAndSavePaperNotePDF_stops_on_failed_download
    (paperData : StructuredPaperData) (u : string) (w : World) :
  truthy (pdfUrl paperData) = Some u →
  files w !! pdfSavePath this (constructFileName paperData) = None →
  network u = None →
  ∃ e,
    downloadAndSavePaperNotePDF getDate NOTE_TEMPLATE_DEFAULT FILE_ALREADY_EXISTS
      network this paperData w
    = (Throw e, {| files := files w; log := log w ++ [RequestUrl u] |}).
Proof.
  intros Hu Hno Hnet. unfold downloadAndSavePaperNotePDF. rewrite Hu.
  destruct (downloadPdf_cases network this (Some u) (constructFileName paperData) w)
    as [[Ht _] | (u' & Hu' & [[[n Hn] _] | [(_ & _ & E) | (_ & body & Hb & _)]])].
  - rewrite (truthy_Some _ _ Hu) in Ht. discriminate Ht.
  - congruence.
  - rewrite (truthy_Some _ _ Hu) in Hu'. injection Hu' as <-.
    unfold bind at 1 2. rewrite E. eauto.
  - rewrite (truthy_Some _ _ Hu) in Hu'. injection Hu' as <-. congruence.
Qed.

(** X11: whatever happens, [downloadAndSavePaperNotePDF] removes and
    rewrites nothing: every file and folder other than the BibTeX file is
    kept as it is, and the BibTeX file keeps its content in front of what
    is added to it. *)
Theorem downloadAndSavePaperNotePDF_keeps_the_vault
    (paperData : StructuredPaperData) (w : World) :
  grows (bibTexFileLocation (settings this)) (files w)
    (files (downloadAndSavePaperNotePDF getDate NOTE_TEMPLATE_DEFAULT
              FILE_ALREADY_EXISTS network this paperData w).2).
Proof.
  unfold downloadAndSavePaperNotePDF. apply grows_bind.
  - intros w0. destruct (truthy (pdfUrl paperData)) as [u|].
    + apply grows_bind; [|intros; apply grows_refl].
      intros w'. apply grows_subseteq, downloadPdf_subseteq.
    + apply grows_refl.
  - intros pd w0. apply grows_bind.
    + intros w'. apply grows_subseteq, createFileFromPaperData_subseteq.
    + intros _ w'. destruct (truthy (bibtex pd)) as [b|].
      * apply saveBibTex_grows.
      * apply grows_refl.
Qed.

End Pipeline.

Lemma downloadPdf_again_is_skipped_witness :
  downloadPdf network_up scholar (pdfUrl attention_remote)
    "Attention Is All You Need" vault_with_bib
  = (Return "pdfs/Attention Is All You Need.pdf", vault_after_download) ∧
  downloadPdf network_up scholar (pdfUrl attention_remote)
    "Attention Is All You Need" vault_after_download
  = (Return "pdfs/Attention Is All You Need.pdf", vault_after_download).
Proof.
  split; [vm_compute; reflexivity|].
  apply (downloadPdf_again_is_skipped network_up scholar (pdfUrl attention_remote)
           "Attention Is All You Need" "pdfs/Attention Is All You Need.pdf"
           vault_with_bib vault_after_download).
  vm_compute; reflexivity.
Defined.

Lemma downloadPdf_saves_the_response_witness :
  files vault_with_bib !! pdfSavePath scholar "Attention Is All You Need" = None ∧
  downloadPdf network_up scholar (pdfUrl attention_remote)
    "Attention Is All You Need" vault_with_bib
  = (Return "pdfs/Attention Is All You Need.pdf", vault_after_download) ∧
  ∃ u body, truthy (pdfUrl attention_remote) = Some u ∧ network_up u = Some body ∧
            files vault_after_download
            = <["pdfs/Attention Is All You Need.pdf" := File body]> (files vault_with_bib) ∧
            log vault_after_download = log vault_with_bib ++ [RequestUrl u].
Proof.
  split; [vm_compute; reflexivity|]. split; [vm_compute; reflexivity|].
  apply (downloadPdf_saves_the_response network_up scholar (pdfUrl attention_remote)
           "Attention Is All You Need" "pdfs/Attention Is All You Need.pdf"
           vault_with_bib vault_after_download); vm_compute; reflexivity.
Defined.

Lemma createFileFromPaperData_writes_the_rendered_template_witness :
  files vault_with_bib !! "Papers/Attention Is All You Need.md" = None ∧
  createFileFromPaperData (λ format, format) note_template "File already exists"
    scholar attention_remote "Papers/Attention Is All You Need.md" vault_with_bib
  = (Return (), vault_after_note) ∧
  files vault_after_note !! "Papers/Attention Is All You Need.md"
  = Some (File "# Attention Is All You Need! by A, B") ∧
  ∃ later, log vault_after_note
           = log vault_with_bib
             ++ OpenLinkText "Papers/Attention Is All You Need.md" :: later.
Proof.
  split; [vm_compute; reflexivity|]. split; [vm_compute; reflexivity|].
  apply (createFileFromPaperData_writes_the_rendered_template (λ format, format)
           note_template "File already exists" scholar attention_remote
           "Papers/Attention Is All You Need.md" vault_with_bib vault_after_note);
    vm_compute; reflexivity.
Defined.

Lemma createFileFromPaperData_writes_once_witness :
  createFileFromPaperData (λ format, format) note_template "File already exists"
    scholar attention_remote "Papers/Attention Is All You Need.md" vault_with_bib
  = (Return (), vault_after_note) ∧
  ∃ w2,
    createFileFromPaperData (λ format, format) note_template "File already exists"
      scholar (paper_titled "Attention: Is All You Need?")
      "Papers/Attention Is All You Need.md" vault_after_note
    = (Return (), w2) ∧
    files w2 = files vault_after_note.
Proof.
  split; [vm_compute; reflexivity|].
  apply (createFileFromPaperData_writes_once (λ format, format) note_template
           "File already exists" scholar attention_remote
           (paper_titled "Attention: Is All You Need?")
           "Papers/Attention Is All You Need.md" vault_with_bib vault_after_note).
  vm_compute; reflexivity.
Defined.

Lemma downloadAndSavePaperNotePDF_stops_on_failed_download_witness :
  truthy (pdfUrl attention_remote) = Some "https://arxiv.org/pdf/1706.03762" ∧
  files vault_with_bib !! pdfSavePath scholar (constructFileName attention_remote) = None ∧
  network_down "https://arxiv.org/pdf/1706.03762" = None ∧
  ∃ e,
    downloadAndSavePaperNotePDF (λ format, format) note_template "File already exists"
      network_down scholar attention_remote vault_with_bib
    = (Throw e, {| files := files vault_with_bib;
                   log := log vault_with_bib
                          ++ [RequestUrl "https://arxiv.org/pdf/1706.03762"] |}).
Proof.
  split; [reflexivity|]. split; [vm_compute; reflexivity|]. split; [reflexivity|].
  apply (downloadAndSavePaperNotePDF_stops_on_failed_download (λ format, format)
           note_template "File already exists" network_down scholar
           attention_remote "https://arxiv.org/pdf/1706.03762" vault_with_bib);
    [reflexivity | vm_compute; reflexivity | reflexivity].
Defined.

(** ** Dates and times in templates *)

Section ReplaceDateSegments.

Variable getDate : string → string.
Variable m : Regex.matcher.
Variable r : Regex.replacer.
Variable step : date_segment → date_segment.

Hypothesis m_empty : m "" = None.
Hypothesis m_segment : ∀ g x before, date_segment_ok getDate g = true → ∃ before',
  Regex.replace_from m r 0 before (date_segment_text g +:+ x)
  = date_segment_text (step g) +:+ Regex.replace_from m r 0 before' x.

Lemma replace_from_date_segments (segs : list date_segment) :
  forallb (date_segment_ok getDate) segs = true →
  ∀ before,
    Regex.replace_from m r 0 before (flatten_dates date_segment_text segs)
    = flatten_dates date_segment_text (map step segs).
Proof.
  induction segs as [|g segs IH]; simpl.
  - intros _ before. by rewrite m_empty.
  - intros [Hg Hs]%andb_true_iff before.
    destruct (m_segment g (flatten_dates date_segment_text segs) before Hg)
      as [before' ->].
    by rewrite IH.
Qed.

End ReplaceDateSegments.

Lemma replace_from_skip (m : Regex.matcher) (r : Regex.replacer) (a x : string) :
  ∀ before, ∃ before',
    Regex.replace_from m r (String.length a) before (a +:+ x)
    = Regex.replace_from m r 0 before' x.
Proof.
  induction a as [|c a IH]; intros before; simpl; [eauto|]. apply IH.
Qed.

Lemma no_brace_app (a b : string) :
  no_brace a = true → no_brace b = true → no_brace (a +:+ b) = true.
Proof.
  unfold no_brace. induction a as [|c a IH]; simpl; [done|].
  intros [-> Ha]%andb_true_iff Hb. by apply IH.
Qed.

Lemma format_ok_no_brace (format : string) :
  format_ok format = true → no_brace format = true.
Proof.
  unfold format_ok, no_brace. induction format as [|c f IH]; simpl; [done|].
  intros [[[-> _]%andb_true_iff _]%andb_true_iff Hf]%andb_true_iff. by apply IH.
Qed.

Lemma lazy_dots_until_braces (format rest : string) :
  format_ok format = true →
  Regex.lazy_dots_until "}}" (format +:+ String "}" (String "}" rest)) = Some format.
Proof.
  unfold format_ok. induction format as [|c f IH]; simpl; [done|].
  intros [[[_ Hc]%andb_true_iff Hlt]%andb_true_iff Hf]%andb_true_iff.
  apply negb_true_iff in Hc, Hlt.
  rewrite Ascii.eqb_sym in Hc. rewrite Hc, Hlt. simpl. by rewrite IH.
Qed.

Lemma drop_length_app (p s : string) : Str.drop (String.length p) (p +:+ s) = s.
Proof. induction p as [|a p IH]; simpl; [by destruct s | done]. Qed.

(** A replacement at a match that starts the text. *)
Lemma replace_from_match (m : Regex.matcher) (r : Regex.replacer)
    (a x before : string) (caps : list string) :
  a ≠ "" →
  m (a +:+ x) = Some (String.length a, caps) →
  ∃ before',
    Regex.replace_from m r 0 before (a +:+ x)
    = r (Str.take (String.length a) (a +:+ x)) caps before x
      +:+ Regex.replace_from m r 0 before' x.
Proof.
  destruct a as [|c a]; [done|]. intros _ Hm.
  destruct (replace_from_skip m r a x (Str.snoc before c)) as [before' E].
  exists before'. simpl in Hm |- *. by rewrite Hm, drop_length_app, E.
Qed.

(** A piece [{{t] whose text [t] has no opening brace, and at whose two
    braces the pattern does not match, is passed over. *)
Lemma replace_from_braced (m : Regex.matcher) (r : Regex.replacer) (t x : string) :
  (∀ c y, Ascii.eqb c "{" = false → m (String c y) = None) →
  (∀ y, m (String "{" (String "{" (t +:+ y))) = None) →
  (∀ y, m (String "{" (t +:+ y)) = None) →
  no_brace t = true →
  ∀ before, ∃ before',
    Regex.replace_from m r 0 before (String "{" (String "{" t) +:+ x)
    = String "{" (String "{" t) +:+ Regex.replace_from m r 0 before' x.
Proof.
  intros Htext H0 H1 Ht before. simpl. rewrite H0, H1.
  destruct (replace_from_text m r Htext t x Ht
              (Str.snoc (Str.snoc before "{") "{")) as [before' ->].
  eauto.
Qed.

Lemma lit_lazy_lit_match (open format x : string) :
  format_ok format = true →
  Regex.lit_lazy_lit open "}}" ((open +:+ format +:+ "}}") +:+ x)
  = Some (String.length (open +:+ format +:+ "}}"), [format]).
Proof.
  intros Hf. unfold Regex.lit_lazy_lit.
  rewrite !append_assoc, starts_with_refl_app, drop_length_app.
  simpl String.append. rewrite (lazy_dots_until_braces format x Hf). simpl.
  rewrite !length_append. simpl. do 2 f_equal. lia.
Qed.

Lemma lit_text (p : string) (c : ascii) (x : string) :
  Ascii.eqb c "{" = false → Regex.lit (String "{" p) (String c x) = None.
Proof. intros Hc. unfold Regex.lit. by rewrite starts_with_brace. Qed.

Lemma lit_lazy_lit_text (p close : string) (c : ascii) (x : string) :
  Ascii.eqb c "{" = false → Regex.lit_lazy_lit (String "{" p) close (String c x) = None.
Proof. intros Hc. unfold Regex.lit_lazy_lit. by rewrite starts_with_brace. Qed.

Lemma no_brace_format_piece (name format : string) :
  no_brace name = true → format_ok format = true →
  no_brace (name +:+ format +:+ "}}") = true.
Proof.
  intros Hn Hf. apply no_brace_app; [done|].
  apply no_brace_app; [by apply format_ok_no_brace | done].
Qed.

(** Pass over a piece [{{t] at which the pattern does not match. *)
Ltac pass_braced_lit t Ht :=
  lazymatch goal with
  | |- ∃ _, Regex.replace_from ?m ?r 0 ?before (_ +:+ ?x) = _ =>
      exact (replace_from_braced m r t x (λ c y Hc, lit_text _ c y Hc)
               (λ y, eq_refl) (λ y, eq_refl) Ht before)
  end.

Ltac pass_braced_lazy t Ht :=
  lazymatch goal with
  | |- ∃ _, Regex.replace_from ?m ?r 0 ?before (_ +:+ ?x) = _ =>
      exact (replace_from_braced m r t x (λ c y Hc, lit_lazy_lit_text _ _ c y Hc)
               (λ y, eq_refl) (λ y, eq_refl) Ht before)
  end.

Section DateSteps.

Variable getDate : string → string.

Lemma date_step_ok (n : nat) (g : date_segment) :
  date_segment_ok getDate g = true →
  date_segment_ok getDate (date_step getDate n g) = true.
Proof.
  intros Hg. destruct n as [|[|[|[|n]]]], g; simpl in *; try done;
    try (by apply plain_no_brace); by apply andb_true_iff in Hg as [_ ?].
Qed.

Lemma date_steps_ok (n : nat) (segs : list date_segment) :
  forallb (date_segment_ok getDate) segs = true →
  forallb (date_segment_ok getDate) (map (date_step getDate n) segs) = true.
Proof.
  induction segs as [|g segs IH]; simpl; [done|].
  intros [Hg Hs]%andb_true_iff. by rewrite date_step_ok, IH.
Qed.

(** [{{date}}] by the date in the default format. *)
Lemma replace_date_segments (segs : list date_segment) :
  forallb (date_segment_ok getDate) segs = true →
  Regex.replace_all (Regex.lit "{{date}}") (Regex.by_string (getDate "YYYY-MM-DD"))
    (flatten_dates date_segment_text segs)
  = flatten_dates date_segment_text (map (date_step getDate 0) segs).
Proof.
  intros Hsegs. unfold Regex.replace_all.
  apply (replace_from_date_segments getDate); [done| |done].
  intros g x before Hg. destruct g as [s| | |f|f]; simpl in Hg.
  - apply replace_from_text; [|done]. intros c y Hc. by apply lit_text.
  - simpl. unfold Regex.by_string. rewrite GetSubstitution_plain by done. eauto.
  - simpl. eauto.
  - apply andb_true_iff in Hg as [Hf _].
    pass_braced_lit ("date:" +:+ f +:+ "}}") (no_brace_format_piece "date:" f eq_refl Hf).
  - apply andb_true_iff in Hg as [Hf _].
    pass_braced_lit ("time:" +:+ f +:+ "}}") (no_brace_format_piece "time:" f eq_refl Hf).
Qed.

(** [{{time}}] by the time in the default format. *)
Lemma replace_time_segments (segs : list date_segment) :
  forallb (date_segment_ok getDate) segs = true →
  Regex.replace_all (Regex.lit "{{time}}") (Regex.by_string (getDate "HH:mm"))
    (flatten_dates date_segment_text segs)
  = flatten_dates date_segment_text (map (date_step getDate 1) segs).
Proof.
  intros Hsegs. unfold Regex.replace_all.
  apply (replace_from_date_segments getDate); [done| |done].
  intros g x before Hg. destruct g as [s| | |f|f]; simpl in Hg.
  - apply replace_from_text; [|done]. intros c y Hc. by apply lit_text.
  - simpl. eauto.
  - simpl. unfold Regex.by_string. rewrite GetSubstitution_plain by done. eauto.
  - apply andb_true_iff in Hg as [Hf _].
    pass_braced_lit ("date:" +:+ f +:+ "}}") (no_brace_format_piece "date:" f eq_refl Hf).
  - apply andb_true_iff in Hg as [Hf _].
    pass_braced_lit ("time:" +:+ f +:+ "}}") (no_brace_format_piece "time:" f eq_refl Hf).
Qed.

(** [{{date:FORMAT}}] by the date in that format. *)
Lemma replace_date_as_segments (segs : list date_segment) :
  forallb (date_segment_ok getDate) segs = true →
  Regex.replace_all (Regex.lit_lazy_lit "{{date:" "}}") (Regex.by_group1 getDate)
    (flatten_dates date_segment_text segs)
  = flatten_dates date_segment_text (map (date_step getDate 2) segs).
Proof.
  intros Hsegs. unfold Regex.replace_all.
  apply (replace_from_date_segments getDate); [done| |done].
  intros g x before Hg. destruct g as [s| | |f|f]; simpl in Hg.
  - apply replace_from_text; [|done]. intros c y Hc. by apply lit_lazy_lit_text.
  - simpl. eauto.
  - simpl. eauto.
  - apply andb_true_iff in Hg as [Hf _].
    destruct (replace_from_match (Regex.lit_lazy_lit "{{date:" "}}")
                (Regex.by_group1 getDate) ("{{date:" +:+ f +:+ "}}") x before [f])
      as [before' E]; [done | by apply lit_lazy_lit_match |].
    exists before'. exact E.
  - apply andb_true_iff in Hg as [Hf _].
    pass_braced_lazy ("time:" +:+ f +:+ "}}") (no_brace_format_piece "time:" f eq_refl Hf).
Qed.

(** [{{time:FORMAT}}] by the time in that format. *)
Lemma replace_time_as_segments (segs : list date_segment) :
  forallb (date_segment_ok getDate) segs = true →
  Regex.replace_all (Regex.lit_lazy_lit "{{time:" "}}") (Regex.by_group1 getDate)
    (flatten_dates date_segment_text segs)
  = flatten_dates date_segment_text (map (date_step getDate 3) segs).
Proof.
  intros Hsegs. unfold Regex.replace_all.
  apply (replace_from_date_segments getDate); [done| |done].
  intros g x before Hg. destruct g as [s| | |f|f]; simpl in Hg.
  - apply replace_from_text; [|done]. intros c y Hc. by apply lit_lazy_lit_text.
  - simpl. eauto.
  - simpl. eauto.
  - apply andb_true_iff in Hg as [Hf _].
    pass_braced_lazy ("date:" +:+ f +:+ "}}") (no_brace_format_piece "date:" f eq_refl Hf).
  - apply andb_true_iff in Hg as [Hf _].
    destruct (replace_from_match (Regex.lit_lazy_lit "{{time:" "}}")
                (Regex.by_group1 getDate) ("{{time:" +:+ f +:+ "}}") x before [f])
      as [before' E]; [done | by apply lit_lazy_lit_match |].
    exists before'. exact E.
Qed.

End DateSteps.

(** A text without opening braces has no token to replace. *)
Lemma replace_token_text (p : StructuredPaperData) (t : token) (s : string) :
  no_brace s = true → replace_token p t s = s.
Proof.
  intros Hs. unfold replace_token. destruct (token_value p t) as [v|]; [|done].
  unfold Regex.replace_all.
  destruct (replace_from_text (Regex.lit (token_text t)) (Regex.by_string v))
    with (s := s) (x := "") (before := "") as [before' E]; [|done|].
  - intros c x Hc. destruct t; by apply lit_text.
  - rewrite append_empty_r in E. rewrite E. simpl.
    assert (Regex.lit (token_text t) "" = None) as -> by (by destruct t).
    apply append_empty_r.
Qed.

Lemma replace_tokens_text (p : StructuredPaperData) (ts : list token) (s : string) :
  no_brace s = true → foldl (λ s t, replace_token p t s) s ts = s.
Proof.
  intros Hs. induction ts as [|t ts IH]; simpl; [done|].
  by rewrite replace_token_text.
Qed.

Section RenderDates.

Variable getDate : string → string.

Lemma date_steps_render (g : date_segment) :
  date_segment_ok getDate g = true →
  date_segment_text
    (date_step getDate 3 (date_step getDate 2 (date_step getDate 1
       (date_step getDate 0 g))))
  = render_date_segment getDate g ∧
  no_brace (render_date_segment getDate g) = true.
Proof.
  destruct g; simpl; intros Hg; (split; [done|]);
    try done; try (by apply plain_no_brace);
    by apply andb_true_iff in Hg as [_ ?].
Qed.

Lemma rendered_dates_no_brace (segs : list date_segment) :
  forallb (date_segment_ok getDate) segs = true →
  no_brace (flatten_dates (render_date_segment getDate) segs) = true.
Proof.
  induction segs as [|g segs IH]; simpl; [done|].
  intros [Hg Hs]%andb_true_iff. apply no_brace_app; [|by apply IH].
  by apply date_steps_render.
Qed.

Lemma replace_dates_date_segments (segs : list date_segment) :
  forallb (date_segment_ok getDate) segs = true →
  replace_dates getDate (flatten_dates date_segment_text segs)
  = flatten_dates (render_date_segment getDate) segs.
Proof.
  intros Hsegs. unfold replace_dates. cbv zeta.
  change ("{{" +:+ "date" +:+ "}}") with "{{date}}".
  change ("{{" +:+ "time" +:+ "}}") with "{{time}}".
  change ("{{" +:+ "date" +:+ ":") with "{{date:".
  change ("{{" +:+ "time" +:+ ":") with "{{time:".
  rewrite replace_date_segments by done.
  rewrite replace_time_segments by (by apply date_steps_ok).
  rewrite replace_date_as_segments by (by do 2 apply date_steps_ok).
  rewrite replace_time_as_segments by (by do 3 apply date_steps_ok).
  clear -Hsegs. induction segs as [|g segs IH]; [done|].
  simpl in Hsegs. apply andb_true_iff in Hsegs as [Hg Hs].
  cbn [map flatten_dates].
  rewrite IH by done. by destruct (date_steps_render g Hg) as [-> _].
Qed.

(** X12: for a template made of date tokens ([{{date}}], [{{time}}],
    [{{date:FORMAT}}], [{{time:FORMAT}}]) and of text without opening
    braces, rendering replaces [{{date}}] and [{{time}}] by [getDate] of
    the formats [YYYY-MM-DD] and [HH:mm], replaces each token with a format
    by [getDate] of that format, and leaves the text as it is, whatever the
    paper; the formats are without braces and line terminators, and the
    dates without opening braces (nor dollar signs for the two default
    formats). *)
Theorem fill_template_renders_dates (segs : list date_segment)
    (p : StructuredPaperData) :
  forallb (date_segment_ok getDate) segs = true →
  fill_template getDate (flatten_dates date_segment_text segs) p
  = flatten_dates (render_date_segment getDate) segs.
Proof.
  intros Hsegs.
  rewrite fill_template_chain, replace_dates_date_segments by done.
  apply replace_tokens_text. by apply rendered_dates_no_brace.
Qed.

End RenderDates.

Lemma fill_template_renders_dates_witness :
  forallb (date_segment_ok example_clock)
    [DText "Read on "; DDate; DText " at "; DTimeAs "HH"; DText "h"] = true ∧
  fill_template example_clock "Read on {{date}} at {{time:HH}}h" attention_remote
  = "Read on <YYYY-MM-DD> at <HH>h".
Proof.
  split; [reflexivity|].
  apply (fill_template_renders_dates example_clock
           [DText "Read on "; DDate; DText " at "; DTimeAs "HH"; DText "h"]
           attention_remote).
  reflexivity.
Defined.

(** ** The note reader, read back *)

Lemma exec_link_wrapper (pre p post : string) :
  Str.all (λ c, negb (Ascii.eqb c "[")) pre = true →
  Str.all (λ c, negb (Str.is_line_terminator c) && negb (Ascii.eqb c "]")) p = true →
  ∃ whole,
    Regex.exec link_wrapper (pre +:+ "[[" +:+ p +:+ "]]" +:+ post) = Some [whole; p].
Proof.
  intros Hpre Hp. induction pre as [|c pre IH]; simpl.
  - unfold link_wrapper, Regex.lit_lazy_lit. simpl.
    pose proof (lazy_dots_until_close p post Hp) as H. simpl in H.
    rewrite H. simpl. eauto.
  - simpl in Hpre. apply andb_true_iff in Hpre as [Hc Hpre].
    apply negb_true_iff in Hc. rewrite Ascii.eqb_sym in Hc.
    unfold link_wrapper at 1, Regex.lit_lazy_lit. simpl. rewrite Hc. simpl.
    by apply IH.
Qed.

(** X13: a note whose front-matter has an [authors] string and a [pdf]
    string with a link wrapper is read: the path is the text between the
    first [[[] and the next []]], whatever text surrounds the wrapper; the
    authors are the pieces of the string between its commas; and the title
    is the base name of the file when the front-matter has none. *)
Theorem reader_reads_a_well_formed_note
    (getFileCache : TFile → option CachedMetadata) (file : TFile)
    (o : gmap string jsval) (pre p post a : string) :
  getFileCache file ≫= frontmatter = Some o →
  o !! "pdf" = Some (VStr (pre +:+ "[[" +:+ p +:+ "]]" +:+ post)) →
  Str.all (λ c, negb (Ascii.eqb c "[")) pre = true →
  Str.all (λ c, negb (Str.is_line_terminator c) && negb (Ascii.eqb c "]")) p = true →
  o !! "authors" = Some (VStr a) →
  ∃ d, getPaperDataFromLocalFile getFileCache file = Return d ∧
       local_pdfPath d = VStr p ∧
       local_authors d = Str.split "," a ∧
       (o !! "title" = None → local_title d = VStr (basename file)).
Proof.
  intros Hfm Hpdf Hpre Hp Ha. unfold getPaperDataFromLocalFile.
  rewrite Hfm. simpl. rewrite Hpdf, Ha. simpl.
  destruct (exec_link_wrapper pre p post Hpre Hp) as [whole Hexec].
  simpl in Hexec. rewrite Hexec. simpl.
  eexists. split; [reflexivity|]. simpl. split_and!; [done..|].
  by intros ->.
Qed.

Lemma reader_reads_a_well_formed_note_witness :
  ∃ d, getPaperDataFromLocalFile (λ _, Some note_well_formed) reader_file = Return d ∧
       local_pdfPath d = VStr "pdfs/Attention Is All You Need.pdf" ∧
       local_authors d = ["A"; " B"] ∧
       local_title d = VStr "GPT4 Technical Report".
Proof.
  destruct (reader_reads_a_well_formed_note (λ _, Some note_well_formed) reader_file
              (<["authors" := VStr "A, B"]>
               (<["pdf" := VStr "pdf: [[pdfs/Attention Is All You Need.pdf]] (local)"]> ∅))
              "pdf: " "pdfs/Attention Is All You Need.pdf" " (local)" "A, B")
    as (d & Hd & Hp & Ha & Ht); [reflexivity..|].
  exists d. split_and!; [done..|]. apply Ht. reflexivity.
Defined.

Lemma split_from_app (x cur s : string) :
  Str.all (λ c, negb (Ascii.eqb c ",")) x = true →
  Str.split_from "," cur (x +:+ s) = Str.split_from "," (cur +:+ x) s.
Proof.
  revert cur. induction x as [|c x IH]; intros cur; simpl.
  - by rewrite append_empty_r.
  - intros [Hc Hx]%andb_true_iff. apply negb_true_iff in Hc. rewrite Hc.
    rewrite IH by done. unfold Str.snoc. by rewrite append_assoc.
Qed.

Lemma split_from_join (cur b : string) (l : list string) :
  Forall (λ x, Str.all (λ c, negb (Ascii.eqb c ",")) x = true) (b :: l) →
  Str.split_from "," cur (Str.join ", " (b :: l))
  = (cur +:+ b) :: map (λ x, " " +:+ x) l.
Proof.
  revert cur b. induction l as [|c l IH]; intros cur b Hall.
  - apply Forall_inv in Hall. simpl.
    rewrite <- (append_empty_r b) at 1. rewrite split_from_app by done. done.
  - pose proof (Forall_inv Hall) as Hb. apply Forall_inv_tail in Hall.
    change (Str.join ", " (b :: c :: l))
      with (b +:+ String "," (String " " (Str.join ", " (c :: l)))).
    rewrite split_from_app by done.
    change (Str.split_from "," (cur +:+ b) (String "," (String " " (Str.join ", " (c :: l)))))
      with ((cur +:+ b) :: Str.split_from "," " " (Str.join ", " (c :: l))).
    by rewrite IH.
Qed.

(** X14: authors that are joined the way the renderer joins them, with a
    comma and a space, and split the way the reader splits them, at the
    commas, do not come back as they were: every author after the first
    has a space in front, and no author at all comes back as one empty
    author.  (The authors have no comma of their own.) *)
Theorem authors_come_back_with_spaces (o : gmap string jsval) (l : list string) :
  Forall (λ x, Str.all (λ c, negb (Ascii.eqb c ",")) x = true) l →
  o !! "authors" = Some (VStr (Str.join ", " l)) →
  split_authors (Some o)
  = Return (match l with
            | [] => [""]
            | first :: others => first :: map (λ x, " " +:+ x) others
            end).
Proof.
  intros Hall Ha. unfold split_authors. rewrite Ha. simpl.
  destruct l as [|b l]; [done|]. f_equal. unfold Str.split.
  by rewrite split_from_join.
Qed.

Lemma authors_come_back_with_spaces_witness :
  split_authors (Some (<["authors" := VStr (Str.join ", " ["A"; "B"; "C"])]> ∅))
  = Return ["A"; " B"; " C"].
Proof.
  apply (authors_come_back_with_spaces
           (<["authors" := VStr (Str.join ", " ["A"; "B"; "C"])]> ∅) ["A"; "B"; "C"]).
  - repeat constructor.
  - reflexivity.
Defined.

Lemma plain_app (a b : string) :
  plain a = true → plain b = true → plain (a +:+ b) = true.
Proof.
  unfold plain. induction a as [|c a IH]; simpl; [done|].
  intros [-> Ha]%andb_true_iff Hb. by apply IH.
Qed.

(** X15: the link that [{{pdf}}] renders for a path is the path between
    [[[] and []]], and the reader reads it back as that path; the path has
    no opening brace, dollar sign, closing bracket or line terminator. *)
Theorem pdf_link_is_read_back (getDate : string → string)
    (p : StructuredPaperData) (f : string) :
  truthy (pdfPath p) = Some f →
  plain f = true →
  Str.all (λ c, negb (Str.is_line_terminator c) && negb (Ascii.eqb c "]")) f = true →
  fill_template getDate "{{pdf}}" p = "[[" +:+ f +:+ "]]" ∧
  match_link (VStr (fill_template getDate "{{pdf}}" p)) = Return (VStr f).
Proof.
  intros Hf Hplain Hlink.
  assert (Hlinkplain : plain ("[[" +:+ f +:+ "]]") = true)
    by (apply (plain_app "[["), plain_app; done).
  assert (E : fill_template getDate "{{pdf}}" p
              = replace_token p TCitekey
                  (Regex.GetSubstitution "{{pdf}}" "" ""
                     (from_option (λ f, "[[" +:+ f +:+ "]]") "" (truthy (pdfPath p)))
                   +:+ "")) by reflexivity.
  rewrite E, Hf. cbn [from_option].
  rewrite (GetSubstitution_plain _ _ _ _ Hlinkplain), append_empty_r.
  rewrite replace_token_text by (by apply plain_no_brace).
  split; [done|]. by apply match_link_strips_wrapper.
Qed.

Lemma pdf_link_is_read_back_witness :
  truthy (pdfPath (with_pdfPath attention "pdfs/Attention Is All You Need.pdf"))
  = Some "pdfs/Attention Is All You Need.pdf" ∧
  match_link (VStr (fill_template example_clock "{{pdf}}"
                      (with_pdfPath attention "pdfs/Attention Is All You Need.pdf")))
  = Return (VStr "pdfs/Attention Is All You Need.pdf").
Proof.
  split; [reflexivity|].
  apply (pdf_link_is_read_back example_clock
           (with_pdfPath attention "pdfs/Attention Is All You Need.pdf")
           "pdfs/Attention Is All You Need.pdf"); reflexivity.
Defined.

(** ** [getAllLocalPaperData] *)

Lemma map_outcome_Return {A B : Type} (f : A → outcome B) (l : list A) :
  (∃ ys, map_outcome f l = Return ys) ↔ Forall (λ x, ∃ y, f x = Return y) l.
Proof.
  induction l as [|x l IH]; simpl.
  - split; [constructor | eauto].
  - split.
    + intros [ys H]. destruct (f x) as [y|e] eqn:Hx; [|discriminate H].
      destruct (map_outcome f l) as [ys'|e]; [|discriminate H].
      constructor; [eauto|]. apply IH. eauto.
    + intros [[y ->] [ys ->]%IH]%Forall_cons. eauto.
Qed.

Lemma map_outcome_length {A B : Type} (f : A → outcome B) (l : list A) (ys : list B) :
  map_outcome f l = Return ys → length ys = length l.
Proof.
  revert ys. induction l as [|x l IH]; intros ys; simpl.
  - by intros [= <-].
  - destruct (f x) as [y|e]; [|done].
    destruct (map_outcome f l) as [ys'|e]; [|done].
    intros [= <-]. simpl. by rewrite (IH ys').
Qed.

(** X16: [getAllLocalPaperData] is all or nothing: it returns exactly when
    the reader returns for every markdown file whose path begins with the
    note location (one note there without a readable [pdf] link or without
    authors makes the whole listing fail), and it then returns one record
    per such file; the files elsewhere are not read. *)
Theorem getAllLocalPaperData_all_or_nothing
    (getMarkdownFiles : list TFile) (getFileCache : TFile → option CachedMetadata)
    (this : ObsidianScholar) :
  ((∃ ds, getAllLocalPaperData getMarkdownFiles getFileCache this = Return ds) ↔
   ∀ file, In file getMarkdownFiles →
           Str.starts_with (NoteLocation (settings this)) (path file) = true →
           ∃ d, getPaperDataFromLocalFile getFileCache file = Return d) ∧
  ∀ ds, getAllLocalPaperData getMarkdownFiles getFileCache this = Return ds →
        length ds
        = length (List.filter
                    (λ file, Str.starts_with (NoteLocation (settings this)) (path file))
                    getMarkdownFiles).
Proof.
  unfold getAllLocalPaperData. split.
  - rewrite map_outcome_Return, List.Forall_forall.
    split.
    + intros H file Hin Hpre. apply H, filter_In. done.
    + intros H file [Hin Hpre]%filter_In. by apply H.
  - intros ds. apply map_outcome_length.
Qed.

(** ** [constructFileName], as a file name *)

Lemma constructFileName_filter (paperData : StructuredPaperData) :
  constructFileName paperData = Str.filter filename_char (title paperData).
Proof.
  unfold constructFileName, Regex.replace_all. rewrite replace_class_empty.
  generalize (title paperData) as s.
  induction s as [|c s IH]; simpl; [done|]. by rewrite negb_involutive, IH.
Qed.

Lemma filter_all (P : ascii → bool) (s : string) :
  Str.all P (Str.filter P s) = true.
Proof.
  induction s as [|c s IH]; simpl; [done|].
  destruct (P c) eqn:Hc; simpl; [by rewrite Hc|done].
Qed.

Lemma filter_fixed (P : ascii → bool) (s : string) :
  Str.all P s = true → Str.filter P s = s.
Proof.
  induction s as [|c s IH]; simpl; [done|].
  intros [-> Hs]%andb_true_iff. by rewrite IH.
Qed.

Lemma filter_length (P : ascii → bool) (s : string) :
  String.length (Str.filter P s) ≤ String.length s.
Proof.
  induction s as [|c s IH]; simpl; [done|]. destruct (P c); simpl; lia.
Qed.

(** X17: the file name derived from a paper has only letters, digits and
    spaces, is no longer than the title, and is its own file name: a paper
    whose title is that file name gets the same file name. *)
Theorem constructFileName_is_a_safe_name (paperData : StructuredPaperData) :
  Str.all filename_char (constructFileName paperData) = true ∧
  String.length (constructFileName paperData) ≤ String.length (title paperData) ∧
  constructFileName (with_title paperData (constructFileName paperData))
  = constructFileName paperData.
Proof.
  rewrite (constructFileName_filter (with_title _ _)).
  rewrite !constructFileName_filter. simpl. split_and!.
  - apply filter_all.
  - apply filter_length.
  - apply filter_fixed, filter_all.
Qed.

(** ** The search modal *)

Lemma starts_with_toLowerCase (q t : string) :
  Str.starts_with q t = true →
  Str.starts_with (toLowerCase q) (toLowerCase t) = true.
Proof.
  revert t. induction q as [|a q IH]; intros t; simpl; [done|].
  destruct t as [|b t]; simpl; [done|].
  intros [Hab Hq]%andb_true_iff. apply Ascii.eqb_eq in Hab as ->.
  by rewrite Ascii.eqb_refl, IH.
Qed.

Lemma includes_toLowerCase (q t : string) :
  Str.includes q t = true →
  Str.includes (toLowerCase q) (toLowerCase t) = true.
Proof.
  induction t as [|b t IH].
  - simpl. rewrite !orb_false_r. apply (starts_with_toLowerCase q "").
  - change (Str.includes q (String b t))
      with (Str.starts_with q (String b t) || Str.includes q t).
    change (Str.includes (toLowerCase q) (toLowerCase (String b t)))
      with (Str.starts_with (toLowerCase q) (toLowerCase (String b t))
            || Str.includes (toLowerCase q) (toLowerCase t)).
    intros [H|H]%orb_true_iff.
    + by rewrite (starts_with_toLowerCase q (String b t) H).
    + rewrite IH by done. apply orb_true_r.
Qed.

Lemma filter_outcome_Return {A : Type} (f : A → outcome bool) (l : list A) :
  (∃ xs, filter_outcome f l = Return xs) ↔ Forall (λ x, ∃ b, f x = Return b) l.
Proof.
  induction l as [|x l IH]; simpl.
  - split; [constructor | eauto].
  - split.
    + intros [xs H]. destruct (f x) as [b|e] eqn:Hx; [|discriminate H].
      destruct (filter_outcome f l) as [xs'|e]; [|discriminate H].
      constructor; [eauto|]. apply IH. eauto.
    + intros [[b ->] [xs ->]%IH]%Forall_cons. eauto.
Qed.

Lemma filter_outcome_spec {A : Type} (f : A → outcome bool) (l xs : list A) :
  filter_outcome f l = Return xs →
  xs `sublist_of` l ∧ ∀ x, In x l → f x = Return true → In x xs.
Proof.
  revert xs. induction l as [|y l IH]; intros xs; simpl.
  - intros [= <-]. split; [done|]. by intros x [].
  - destruct (f y) as [b|e] eqn:Hy; [|done].
    destruct (filter_outcome f l) as [xs'|e]; [|done].
    destruct (IH xs' eq_refl) as [Hsub Hin]. intros [= <-]. split.
    + destruct b; [by apply sublist_skip | by apply sublist_cons].
    + intros x [<-|Hx] Hfx.
      * rewrite Hy in Hfx. injection Hfx as ->. by left.
      * destruct b; [right|]; by apply Hin.
Qed.

Lemma filter_outcome_all {A : Type} (f : A → outcome bool) (l : list A) :
  Forall (λ x, f x = Return true) l → filter_outcome f l = Return l.
Proof.
  induction 1 as [|x l Hx _ IH]; simpl; [done|]. by rewrite Hx, IH.
Qed.

Lemma matches_query_Return (query : string) (result : PaperSearchModelResult) :
  (∃ b, matches_query query result = Return b) ↔ ∃ t, result_title result = VStr t.
Proof.
  unfold matches_query. destruct (result_title result); split;
    intros [? H]; try discriminate H; eauto.
Qed.

(** X18: for a query and titles whose code units are all below 256
    (Latin-1 text, the strings of this development), a local paper is
    found by any text of its title, whatever the letter case of the query
    and of the title; what is found is a selection of the local papers, in
    their order.  (The titles of the local papers are strings.) *)
Theorem searchLocalPapers_finds_titles_in_any_case
    (modal : paperSearchModal) (query part t : string)
    (result : PaperSearchModelResult) :
  Forall (λ r, ∃ t, result_title r = VStr t) (localPaperData modal) →
  In result (localPaperData modal) →
  result_title result = VStr t →
  Str.includes part t = true →
  toLowerCase query = toLowerCase part →
  ∃ results, searchLocalPapers modal query = Return results ∧
             In result results ∧
             results `sublist_of` localPaperData modal.
Proof.
  intros Hall Hin Ht Hpart Hq. unfold searchLocalPapers.
  destruct (proj2 (filter_outcome_Return (matches_query query) (localPaperData modal)))
    as [results Hres].
  { eapply Forall_impl; [exact Hall|]. intros r Hr. by apply matches_query_Return. }
  exists results. destruct (filter_outcome_spec _ _ _ Hres) as [Hsub Hfound].
  split_and!; [done| |done]. apply Hfound; [done|].
  unfold matches_query. rewrite Ht, Hq.
  by rewrite (includes_toLowerCase part t Hpart).
Qed.

Lemma searchLocalPapers_finds_titles_in_any_case_witness :
  In attention_local (localPaperData example_modal) ∧
  Str.includes "All You" "Attention Is All You Need" = true ∧
  toLowerCase "ALL you" = toLowerCase "All You" ∧
  ∃ results, searchLocalPapers example_modal "ALL you" = Return results ∧
             In attention_local results ∧
             results `sublist_of` localPaperData example_modal.
Proof.
  split; [by left|]. split; [reflexivity|]. split; [reflexivity|].
  apply (searchLocalPapers_finds_titles_in_any_case example_modal "ALL you"
           "All You" "Attention Is All You Need" attention_local).
  - repeat constructor. by eexists.
  - by left.
  - reflexivity.
  - reflexivity.
  - reflexivity.
Defined.

(** X19: [searchLocalPapers] returns exactly when the title of every
    local paper is a string (one note whose front-matter title is a number
    or a list makes every search fail), and with the empty query it then
    returns every local paper. *)
Theorem searchLocalPapers_needs_string_titles (modal : paperSearchModal) (query : string) :
  ((∃ results, searchLocalPapers modal query = Return results) ↔
   Forall (λ r, ∃ t, result_title r = VStr t) (localPaperData modal)) ∧
  ∀ results, searchLocalPapers modal "" = Return results →
             results = localPaperData modal.
Proof.
  unfold searchLocalPapers. split.
  - rewrite filter_outcome_Return. apply Forall_proper; [|done].
    intros r. apply matches_query_Return.
  - intros results Hres.
    assert (Hall : Forall (λ r, matches_query "" r = Return true) (localPaperData modal)).
    { assert (∃ xs, filter_outcome (matches_query "") (localPaperData modal) = Return xs)
        as Hret%filter_outcome_Return by eauto.
      eapply Forall_impl; [exact Hret|]. intros r [b Hb]. rewrite Hb.
      revert Hb. unfold matches_query. destruct (result_title r); try done.
      intros [= <-]. simpl. by rewrite includes_empty. }
    rewrite (filter_outcome_all _ _ Hall) in Hres. by injection Hres.
Qed.

Lemma no_heading_imap {A : Type} (g : nat → A → PaperSearchModelResult) (l : list A) :
  (∀ i x, has_heading (g i x) = false) →
  List.filter has_heading (imap g l) = [].
Proof.
  revert g. induction l as [|x l IH]; intros g Hg; simpl; [done|].
  rewrite Hg. apply IH. intros i y. apply Hg.
Qed.

Lemma s2_results_headings (papers : list StructuredPaperData) :
  length (List.filter has_heading (s2_results papers)) = min 1 (length papers).
Proof.
  unfold s2_results. destruct papers as [|p papers]; [done|]. simpl.
  by rewrite no_heading_imap.
Qed.

Lemma no_heading_sublist (l xs : list PaperSearchModelResult) :
  xs `sublist_of` l →
  Forall (λ r, has_heading r = false) l →
  List.filter has_heading xs = [].
Proof.
  induction 1 as [|x xs l _ IH|x xs l _ IH]; intros Hall; simpl; [done| |].
  - apply Forall_cons in Hall as [-> Hall]. by apply IH.
  - apply Forall_cons in Hall as [_ Hall]. by apply IH.
Qed.

(** X20: among the suggestions of [getSuggestions], the heading of the
    Semantic Scholar results is put above exactly one suggestion when the
    query is the last one searched and that search had results, and above
    none otherwise.  (The local data are local results, as the constructor
    builds them.) *)
Theorem getSuggestions_has_one_heading
    (modal : paperSearchModal) (query : string)
    (results : list PaperSearchModelResult) :
  Forall (λ r, has_heading r = false) (localPaperData modal) →
  getSuggestions modal query = Return results →
  length (List.filter has_heading results)
  = if decide (query = lastSearch modal)
    then min 1 (length (lastSearchResults modal))
    else 0.
Proof.
  intros Hlocal. unfold getSuggestions.
  destruct (searchLocalPapers modal query) as [locals|e] eqn:Hsearch; [|done].
  intros [= <-].
  destruct (filter_outcome_spec _ _ _ Hsearch) as [Hsub _].
  rewrite List.filter_app, (no_heading_sublist _ _ Hsub Hlocal). simpl.
  destruct (decide _); [apply s2_results_headings | done].
Qed.

Lemma getSuggestions_has_one_heading_witness :
  Forall (λ r, has_heading r = false) (localPaperData example_modal) ∧
  getSuggestions example_modal "attention"
  = Return (attention_local :: s2_results [attention; attention_remote]) ∧
  length (List.filter has_heading
            (attention_local :: s2_results [attention; attention_remote])) = 1.
Proof.
  split; [by repeat constructor|]. split; [reflexivity|].
  apply (getSuggestions_has_one_heading example_modal "attention"
           (attention_local :: s2_results [attention; attention_remote]));
    [by repeat constructor | reflexivity].
Defined.

(** X21: the local data that the constructor of the modal builds are the
    records of [getAllLocalPaperData], each with the path of its note: the
    one fails when the other does, and the records are the same. *)
Theorem local_results_are_the_local_papers
    (getMarkdownFiles : list TFile) (getFileCache : TFile → option CachedMetadata)
    (this : ObsidianScholar) :
  match local_results getMarkdownFiles getFileCache this,
        getAllLocalPaperData getMarkdownFiles getFileCache this with
  | Return results, Return papers =>
      results
      = zip_with LocalResult papers
          (map path
             (List.filter
                (λ file, Str.starts_with (NoteLocation (settings this)) (path file))
                getMarkdownFiles)) ∧
      Forall (λ r, has_heading r = false) results
  | Throw e, Throw e' => e = e'
  | _, _ => False
  end.
Proof.
  unfold local_results, getAllLocalPaperData.
  induction (List.filter _ getMarkdownFiles) as [|file l IH]; simpl; [done|].
  destruct (getPaperDataFromLocalFile getFileCache file) as [paper|e]; [|done].
  destruct (map_outcome _ l) as [results|e]; destruct (map_outcome _ l) as [papers|e'];
    try done.
  destruct IH as [-> Hall]. split; [done|]. by constructor.
Qed.

(** * The append of [saveBibTex], in flight *)

Lemma occurrences_app_r (needle a s : string) :
  Str.occurrences needle s ≤ Str.occurrences needle (a +:+ s).
Proof.
  induction a as [|c a IH]; [done|].
  change (Str.occurrences needle (String c a +:+ s))
    with ((if Str.starts_with needle (String c (a +:+ s)) then 1 else 0)
          + Str.occurrences needle (a +:+ s)).
  lia.
Qed.

Lemma occurrences_self_app (needle s : string) :
  needle ≠ "" →
  1 + Str.occurrences needle s ≤ Str.occurrences needle (needle +:+ s).
Proof.
  destruct needle as [|c n]; [done|]. intros _.
  change (Str.occurrences (String c n) (String c n +:+ s))
    with ((if Str.starts_with (String c n) (String c n +:+ s) then 1 else 0)
          + Str.occurrences (String c n) (n +:+ s)).
  rewrite starts_with_refl_app.
  pose proof (occurrences_app_r (String c n) n s). lia.
Qed.

Section InFlight.

Variable this : ObsidianScholar.

(** Every way [saveBibTex_call] can go: there is nothing to write, or an
    append is started, or the path is a folder and reading it fails. *)
Lemma saveBibTex_call_cases (bibtex : string) (w : World) :
  (bib_settled this bibtex (files w) ∧
   ∃ l, saveBibTex_call this bibtex w
        = (Return None, {| files := files w; log := log w ++ l |})) ∨
  (saveBibTex_enabled (settings this) = true ∧
   bibTexFileLocation (settings this) ≠ "" ∧
   ∃ old, files w !! bibTexFileLocation (settings this) = Some (File old) ∧
          Str.includes bibtex old = false ∧
          saveBibTex_call this bibtex w
          = (Return (Some {| started_path := bibTexFileLocation (settings this);
                             started_data := bibtex +:+ NL2 |}), w)) ∨
  (saveBibTex_enabled (settings this) = true ∧
   bibTexFileLocation (settings this) ≠ "" ∧
   files w !! bibTexFileLocation (settings this) = Some Folder ∧
   saveBibTex_call this bibtex w = (Throw (VaultError "cannot read"), w)).
Proof.
  unfold bib_settled.
  destruct (saveBibTex_enabled (settings this)) eqn:Hen.
  2:{ left. split; [by left|]. exists []. unfold saveBibTex_call. rewrite Hen.
      unfold ret. simpl. by rewrite app_nil_r; destruct w. }
  destruct (decide (bibTexFileLocation (settings this) = "")) as [Hloc|Hloc].
  { left. split; [by right; left|]. unfold saveBibTex_call. rewrite Hen. simpl.
    destruct (decide _) as [_|]; [|done]. run. eauto. }
  assert (Hcall : saveBibTex_call this bibtex w
    = (let* found := Vault.exists_ (bibTexFileLocation (settings this)) in
       let* present :=
         (if found : bool then
            let* bibtexText := Vault.read (bibTexFileLocation (settings this)) in
            ret (Str.includes bibtex bibtexText)
          else ret false) in
       if present : bool then
         emit (Notice "BibTex entry already exists.") ;; ret None
       else
         let* bibtextFile :=
           Vault.getAbstractFileByPath (bibTexFileLocation (settings this)) in
         match bibtextFile with
         | Some (File _) =>
             ret (Some {| started_path := bibTexFileLocation (settings this);
                          started_data := bibtex +:+ NL2 |})
         | _ => emit (Notice "BibTex file not found.") ;; ret None
         end) w).
  { unfold saveBibTex_call. rewrite Hen. simpl. by destruct (decide _). }
  rewrite Hcall. clear Hcall.
  destruct (files w !! bibTexFileLocation (settings this)) as [[old|]|] eqn:Hfile.
  - destruct (Str.includes bibtex old) eqn:Hinc.
    + left. split; [right; right; right; eauto|].
      run. repeat (rewrite Hfile; simpl). rewrite Hinc. simpl. eauto.
    + right. left. split_and!; [done..|]. exists old. split_and!; [done..|].
      run. repeat (rewrite Hfile; simpl). rewrite Hinc. simpl.
      by repeat (rewrite Hfile; simpl).
  - right. right. split_and!; [done..|].
    run. by repeat (rewrite Hfile; simpl).
  - left. split; [by right; right; left|].
    run. repeat (rewrite Hfile; simpl). eauto.
Qed.

(** [saveBibTex] is [saveBibTex_call] followed at once by the landing of
    the append that it started. *)
Lemma saveBibTex_lands (bibtex : string) (w : World) :
  saveBibTex this bibtex w = bind (saveBibTex_call this bibtex) land_if w.
Proof.
  unfold saveBibTex, saveBibTex_call.
  destruct (saveBibTex_enabled (settings this)); simpl; [|done].
  destruct (decide (bibTexFileLocation (settings this) = "")) as [Hloc|Hloc];
    [done|].
  run. destruct (files w !! bibTexFileLocation (settings this)) as [[old|]|] eqn:Hfile;
    simpl; rewrite ?bool_decide_eq_true_2 by eauto;
    rewrite ?bool_decide_eq_false_2 by (by intros [? ?]); simpl;
    repeat (rewrite Hfile; simpl); try done.
  destruct (Str.includes bibtex old); simpl; repeat (rewrite Hfile; simpl);
    unfold land_if, land; run; by repeat (rewrite Hfile; simpl).
Qed.

(** The landing of an append on a file. *)
Lemma land_on_file (a : started) (c : string) (w : World) :
  files w !! started_path a = Some (File c) →
  land a w
  = (Return (),
     {| files := <[started_path a := File (c +:+ started_data a)]> (files w);
        log := log w ++ [Notice "BibTex entry saved."] |}).
Proof. intros Hfile. unfold land. run. by rewrite Hfile. Qed.

(** C6: what the code does when [saveBibTex] is invoked twice with an
    entry that the BibTeX file does not contain, the second time before the
    append of the first has landed (the method returns without awaiting
    it): the second invocation does not detect the entry and starts a
    second append, and when both have landed the file holds the entry
    twice. *)
Theorem saveBibTex_twice_in_flight_writes_twice (bibtex old : string) (w : World) :
  saveBibTex_enabled (settings this) = true →
  bibTexFileLocation (settings this) ≠ "" →
  files w !! bibTexFileLocation (settings this) = Some (File old) →
  Str.includes bibtex old = false →
  ∃ a w3 w4,
    saveBibTex_call this bibtex w = (Return (Some a), w) ∧
    saveBibTex_call this bibtex
      (saveBibTex_call this bibtex w).2 = (Return (Some a), w) ∧
    land a w = (Return (), w3) ∧
    land a w3 = (Return (), w4) ∧
    files w4 !! bibTexFileLocation (settings this)
    = Some (File (old +:+ bibtex +:+ NL2 +:+ bibtex +:+ NL2)) ∧
    2 ≤ bib_occurrences this bibtex w4.
Proof.
  intros Hen Hloc Hfile Hinc.
  destruct (saveBibTex_call_cases bibtex w)
    as [[Hs _] | [(_ & _ & old' & Hold' & _ & Hcall) | (_ & _ & Hfolder & _)]];
    [|clear old' Hold'|congruence].
  { destruct Hs as [Hs | [Hs | [Hs | (c & Hc & Hc')]]]; congruence. }
  set (a := {| started_path := bibTexFileLocation (settings this);
               started_data := bibtex +:+ NL2 |}) in *.
  pose proof (land_on_file a old w Hfile) as Hland1.
  set (w3 := {| files := <[started_path a := File (old +:+ started_data a)]> (files w);
                log := log w ++ [Notice "BibTex entry saved."] |}) in *.
  assert (Hfile3 : files w3 !! started_path a = Some (File (old +:+ started_data a)))
    by apply lookup_insert_eq.
  pose proof (land_on_file a _ w3 Hfile3) as Hland2.
  eexists a, w3, _. split_and!; [done| by rewrite Hcall |done|exact Hland2| |].
  - simpl. rewrite lookup_insert_eq. by rewrite !append_assoc.
  - unfold bib_occurrences. simpl. rewrite lookup_insert_eq.
    assert (Hne : bibtex ≠ "") by (intros ->; by rewrite includes_empty in Hinc).
    rewrite !append_assoc.
    pose proof (occurrences_app_r bibtex old (bibtex +:+ NL2 +:+ bibtex +:+ NL2)).
    pose proof (occurrences_self_app bibtex (NL2 +:+ bibtex +:+ NL2) Hne).
    pose proof (occurrences_app_r bibtex NL2 (bibtex +:+ NL2)).
    pose proof (occurrences_self_app bibtex NL2 Hne).
    lia.
Qed.

(** C10: what the code does when a folder is at the configured BibTeX
    path: the file is read before it is checked to be a file, the reading
    fails, and [saveBibTex] fails with it, without the report that the
    BibTeX file was not found and without any write. *)
Theorem saveBibTex_fails_on_a_folder (bibtex : string) (w : World) :
  saveBibTex_enabled (settings this) = true →
  bibTexFileLocation (settings this) ≠ "" →
  files w !! bibTexFileLocation (settings this) = Some Folder →
  ∃ e, saveBibTex this bibtex w = (Throw e, w).
Proof.
  intros Hen Hloc Hfile. rewrite saveBibTex_lands.
  destruct (saveBibTex_call_cases bibtex w)
    as [[Hs _] | [(_ & _ & old & Hold & _) | (_ & _ & _ & Hcall)]];
    [|congruence|].
  - destruct Hs as [Hs | [Hs | [Hs | (c & Hc & _)]]]; congruence.
  - unfold bind. rewrite Hcall. eauto.
Qed.

End InFlight.

Lemma saveBibTex_twice_in_flight_writes_twice_witness :
  files vault_with_note !! "references.bib" = Some (File entry_knuth) ∧
  Str.includes entry_turing entry_knuth = false ∧
  ∃ a w3 w4,
    saveBibTex_call scholar entry_turing vault_with_note
    = (Return (Some a), vault_with_note) ∧
    saveBibTex_call scholar entry_turing
      (saveBibTex_call scholar entry_turing vault_with_note).2
    = (Return (Some a), vault_with_note) ∧
    land a vault_with_note = (Return (), w3) ∧
    land a w3 = (Return (), w4) ∧
    files w4 !! "references.bib"
    = Some (File (entry_knuth +:+ entry_turing +:+ NL2 +:+ entry_turing +:+ NL2)) ∧
    2 ≤ bib_occurrences scholar entry_turing w4.
Proof.
  split; [reflexivity|]. split; [reflexivity|].
  apply (saveBibTex_twice_in_flight_writes_twice scholar entry_turing entry_knuth
           vault_with_note); [reflexivity|done|reflexivity|reflexivity].
Defined.

Lemma saveBibTex_fails_on_a_folder_witness :
  files vault_with_bib_folder !! "references.bib" = Some Folder ∧
  ∃ e, saveBibTex scholar entry_turing vault_with_bib_folder
       = (Throw e, vault_with_bib_folder).
Proof.
  split; [reflexivity|].
  apply (saveBibTex_fails_on_a_folder scholar entry_turing vault_with_bib_folder);
    [reflexivity|done|reflexivity].
Defined.

(** ** The pipeline, with the append in flight *)

Lemma bind_assoc {A B C : Type} (m : M A) (f : A → M B) (g : B → M C) (w : World) :
  bind (bind m f) g w = bind m (λ x, bind (f x) g) w.
Proof. unfold bind. by destruct (m w) as [[a|e] w']. Qed.

Lemma bind_ext {A B : Type} (m : M A) (f g : A → M B) (w : World) :
  (∀ a w', f a w' = g a w') → bind m f w = bind m g w.
Proof. intros H. unfold bind. destruct (m w) as [[a|e] w']; [apply H|done]. Qed.

Section PipelineInFlight.

Variable getDate : string → string.
Variable NOTE_TEMPLATE_DEFAULT : string.
Variable FILE_ALREADY_EXISTS : string.
Variable network : string → option string.
Variable this : ObsidianScholar.

(** [downloadAndSavePaperNotePDF] is [downloadAndSavePaperNotePDF_call]
    followed at once by the landing of the append that it started. *)
Lemma downloadAndSavePaperNotePDF_lands (paperData : StructuredPaperData) (w : World) :
  downloadAndSavePaperNotePDF getDate NOTE_TEMPLATE_DEFAULT FILE_ALREADY_EXISTS
    network this paperData w
  = bind (downloadAndSavePaperNotePDF_call getDate NOTE_TEMPLATE_DEFAULT
            FILE_ALREADY_EXISTS network this paperData) land_if w.
Proof.
  unfold downloadAndSavePaperNotePDF, downloadAndSavePaperNotePDF_call.
  rewrite bind_assoc. apply bind_ext. intros pd wa.
  rewrite bind_assoc. apply bind_ext. intros [] wb.
  destruct (truthy (bibtex pd)) as [b|]; [|done].
  apply saveBibTex_lands.
Qed.







End PipelineInFlight.


(** * Templates rendered piece by piece *)

Lemma GetSubstitution_no_pattern (matched before after v : string) :
  no_dollar_pattern v = true → Regex.GetSubstitution matched before after v = v.
Proof.
  induction v as [|c v IH]; [done|].
  intros [Hc Hv]%andb_true_iff. specialize (IH Hv). simpl.
  destruct (Ascii.eqb c "$"); [|by rewrite IH].
  destruct v as [|d v]; [done|].
  simpl in Hc. apply negb_true_iff in Hc.
  apply orb_false_iff in Hc as [Hc H4]. apply orb_false_iff in Hc as [Hc H3].
  apply orb_false_iff in Hc as [H1 H2].
  rewrite H1, H2, H3, H4. by rewrite IH.
Qed.

Lemma lone_braces_no_brace (s : string) : no_brace s = true → lone_braces s = true.
Proof.
  unfold no_brace. induction s as [|c s IH]; simpl; [done|].
  intros [-> Hs]%andb_true_iff. simpl. by apply IH.
Qed.

Lemma no_braces_no_brace (s : string) : no_braces s = true → no_brace s = true.
Proof.
  unfold no_braces, no_brace. induction s as [|c s IH]; simpl; [done|].
  intros [[-> _]%andb_true_iff Hs]%andb_true_iff. by apply IH.
Qed.

Lemma no_braces_app (a b : string) :
  no_braces (a +:+ b) = true ↔ no_braces a = true ∧ no_braces b = true.
Proof.
  unfold no_braces. induction a as [|c a IH]; simpl; [tauto|].
  rewrite !andb_true_iff, IH. tauto.
Qed.

Lemma lone_braces_body (body : string) :
  no_braces body = true → lone_braces (String "{" (body +:+ "}}")) = true.
Proof.
  intros Hb.
  assert (Hl : lone_braces (body +:+ "}}") = true).
  { apply lone_braces_no_brace, no_brace_app; [by apply no_braces_no_brace | done]. }
  change (lone_braces (String "{" (body +:+ "}}")))
    with (match body +:+ "}}" with
          | String d _ => negb (Ascii.eqb d "{")
          | EmptyString => false
          end && lone_braces (body +:+ "}}")).
  rewrite Hl, andb_true_r. destruct body as [|b body]; [done|].
  simpl in Hb |- *. by apply andb_true_iff in Hb as [[-> _]%andb_true_iff _].
Qed.

Section ReplacePieces.

(** A global replacement whose pattern begins with two opening braces, and
    whose effect on each piece between braces in front of any text is
    known. *)
Variable m : Regex.matcher.
Variable r : Regex.replacer.
Variable val : string → option string.
Variable good : piece → Prop.

Hypothesis m_empty : m "" = None.
Hypothesis m_text : ∀ c x, Ascii.eqb c "{" = false → m (String c x) = None.
Hypothesis m_brace :
  ∀ d x, Ascii.eqb d "{" = false → m (String "{" (String d x)) = None.
Hypothesis good_text : ∀ s, good (PText s) → lone_braces s = true.
Hypothesis m_braced : ∀ body x before, good (PBraced body) → ∃ before',
  Regex.replace_from m r 0 before (piece_text (PBraced body) +:+ x)
  = piece_text (sub_piece val (PBraced body)) +:+ Regex.replace_from m r 0 before' x.

Lemma replace_from_lone (s x : string) :
  lone_braces s = true →
  ∀ before, ∃ before',
    Regex.replace_from m r 0 before (s +:+ x)
    = s +:+ Regex.replace_from m r 0 before' x.
Proof.
  induction s as [|c s IH]; [simpl; eauto|].
  intros [Hc Hs]%andb_true_iff before. specialize (IH Hs).
  destruct (Ascii.eqb c "{") eqn:Ec.
  - apply Ascii.eqb_eq in Ec as ->. destruct s as [|d s]; [done|].
    simpl in Hc. apply negb_true_iff in Hc.
    destruct (IH (Str.snoc before "{")) as [before' E]. exists before'.
    change (String "{" (String d s) +:+ x) with (String "{" (String d s +:+ x)).
    cbn [Regex.replace_from]. rewrite E.
    change (String d s +:+ x) with (String d (s +:+ x)).
    by rewrite (m_brace d _ Hc).
  - destruct (IH (Str.snoc before c)) as [before' E]. exists before'.
    change (String c s +:+ x) with (String c (s +:+ x)).
    cbn [Regex.replace_from]. by rewrite m_text, E.
Qed.

Lemma replace_from_pieces (pieces : list piece) :
  Forall good pieces →
  ∀ before,
    Regex.replace_from m r 0 before (flatten_pieces piece_text pieces)
    = flatten_pieces piece_text (map (sub_piece val) pieces).
Proof.
  induction 1 as [|g pieces Hg _ IH]; intros before.
  - simpl. by rewrite m_empty.
  - cbn [flatten_pieces map]. destruct g as [s|body].
    + change (piece_text (PText s)) with s.
      change (piece_text (sub_piece val (PText s))) with s.
      destruct (replace_from_lone s (flatten_pieces piece_text pieces)
                  (good_text s Hg) before) as [before' ->].
      by rewrite IH.
    + destruct (m_braced body (flatten_pieces piece_text pieces) before Hg)
        as [before' ->].
      by rewrite IH.
Qed.

(** A piece between braces that the pattern does not match is passed
    over. *)
Lemma replace_from_pass (body x : string) :
  no_braces body = true →
  m (piece_text (PBraced body) +:+ x) = None →
  ∀ before, ∃ before',
    Regex.replace_from m r 0 before (piece_text (PBraced body) +:+ x)
    = piece_text (PBraced body) +:+ Regex.replace_from m r 0 before' x.
Proof.
  intros Hb Hm before.
  destruct (replace_from_lone (String "{" (body +:+ "}}")) x
              (lone_braces_body body Hb) (Str.snoc before "{")) as [before' E].
  exists before'.
  change (piece_text (PBraced body) +:+ x)
    with (String "{" (String "{" (body +:+ "}}") +:+ x)) in Hm |- *.
  cbn [Regex.replace_from]. by rewrite Hm, E.
Qed.

End ReplacePieces.

Lemma no_braces_head (c : ascii) (s : string) :
  no_braces (String c s) = true →
  Ascii.eqb c "{" = false ∧ Ascii.eqb c "}" = false ∧ no_braces s = true.
Proof.
  unfold no_braces. simpl.
  intros [[H1 H2]%andb_true_iff Hs]%andb_true_iff.
  by apply negb_true_iff in H1, H2.
Qed.

(** [{{name}}] begins a text that begins with [{{body}}] only if the body
    is the name. *)
Lemma starts_with_name (name body x : string) :
  no_braces name = true → no_braces body = true →
  Str.starts_with (name +:+ "}}") ((body +:+ "}}") +:+ x) = String.eqb body name.
Proof.
  revert body. induction name as [|a name IH]; intros body Hn Hb.
  - destruct body as [|b body]; [done|].
    apply no_braces_head in Hb as (_ & Hb & _). simpl.
    rewrite Ascii.eqb_sym in Hb. by rewrite Hb.
  - apply no_braces_head in Hn as (_ & Ha & Hn).
    destruct body as [|b body]; simpl.
    + by rewrite Ha.
    + apply no_braces_head in Hb as (_ & _ & Hb).
      rewrite (Ascii.eqb_sym b a). destruct (Ascii.eqb a b); simpl; [|done].
      by apply IH.
Qed.

Lemma lit_braced (name body x : string) :
  no_braces name = true → no_braces body = true →
  Regex.lit ("{{" +:+ name +:+ "}}") (piece_text (PBraced body) +:+ x)
  = if String.eqb body name
    then Some (String.length ("{{" +:+ name +:+ "}}"), [])
    else None.
Proof.
  intros Hn Hb. unfold Regex.lit.
  change (Str.starts_with ("{{" +:+ name +:+ "}}") (piece_text (PBraced body) +:+ x))
    with (Str.starts_with (name +:+ "}}") ((body +:+ "}}") +:+ x)).
  by rewrite starts_with_name.
Qed.

Lemma sub_piece_none (val : string → option string) (pieces : list piece) :
  (∀ body, val body = None) → map (sub_piece val) pieces = pieces.
Proof.
  intros Hval. induction pieces as [|[s|body] pieces IH]; simpl; [done| |].
  - by rewrite IH.
  - by rewrite Hval, IH.
Qed.

Section ReplaceGood.

Variable good : piece → Prop.
Hypothesis good_text : ∀ s, good (PText s) → lone_braces s = true.
Hypothesis good_body : ∀ body, good (PBraced body) → no_braces body = true.

(** The replacement of [{{name}}] by a string. *)
Lemma replace_lit_pieces (name v : string) (pieces : list piece) :
  no_braces name = true →
  (good (PBraced name) → no_dollar_pattern v = true) →
  Forall good pieces →
  Regex.replace_all (Regex.lit ("{{" +:+ name +:+ "}}")) (Regex.by_string v)
    (flatten_pieces piece_text pieces)
  = flatten_pieces piece_text
      (map (sub_piece (λ body, if String.eqb body name then Some v else None)) pieces).
Proof.
  intros Hn Hv Hpieces. unfold Regex.replace_all.
  apply (replace_from_pieces _ _ _ good); [done| | |done| |done].
  - intros c x Hc. by apply lit_text.
  - intros d x Hd. unfold Regex.lit. simpl.
    rewrite Ascii.eqb_sym in Hd. by rewrite Hd.
  - intros body x before Hg. pose proof (good_body body Hg) as Hb.
    pose proof (lit_braced name body x Hn Hb) as Hm.
    cbn [sub_piece]. destruct (String.eqb body name) eqn:E.
    + apply String.eqb_eq in E as ->.
      destruct (replace_from_match _ (Regex.by_string v)
                  (piece_text (PBraced name)) x before [] ltac:(done) Hm)
        as [before' E].
      exists before'. rewrite E. unfold Regex.by_string.
      by rewrite GetSubstitution_no_pattern by auto.
    + apply replace_from_pass; try done.
      * intros c y Hc. by apply lit_text.
      * intros d y Hd. unfold Regex.lit. simpl.
        rewrite Ascii.eqb_sym in Hd. by rewrite Hd.
Qed.

End ReplaceGood.

Lemma starts_with_body (p body y : string) :
  no_braces p = true →
  Str.starts_with p (body +:+ String "}" y) = Str.starts_with p body.
Proof.
  revert body. induction p as [|a p IH]; intros body Hp; [done|].
  apply no_braces_head in Hp as (_ & Ha & Hp).
  destruct body as [|b body]; simpl.
  - by rewrite Ha.
  - destruct (Ascii.eqb a b); simpl; [by apply IH | done].
Qed.

Lemma starts_with_drop (p s : string) :
  Str.starts_with p s = true → s = p +:+ Str.drop (String.length p) s.
Proof.
  revert s. induction p as [|a p IH]; intros s; [by destruct s|].
  destruct s as [|b s]; simpl; [done|].
  intros [->%Ascii.eqb_eq Hs]%andb_true_iff. f_equal. by apply IH.
Qed.

Lemma lazy_dots_until_body (f y : string) :
  no_braces f = true →
  Regex.lazy_dots_until "}}" (f +:+ String "}" (String "}" y))
  = if Str.all (λ c, negb (Str.is_line_terminator c)) f then Some f else None.
Proof.
  induction f as [|c f IH]; [done|].
  intros (_ & Hc & Hf)%no_braces_head. specialize (IH Hf). simpl.
  rewrite Ascii.eqb_sym in Hc. rewrite Hc. simpl.
  destruct (Str.is_line_terminator c); simpl; [done|].
  rewrite IH. by destruct (Str.all _ f).
Qed.

Lemma lit_lazy_lit_braced (name body x : string) :
  no_braces name = true → no_braces body = true →
  Regex.lit_lazy_lit ("{{" +:+ name +:+ ":") "}}" (piece_text (PBraced body) +:+ x)
  = match format_of name body with
    | Some f => Some (String.length (piece_text (PBraced body)), [f])
    | None => None
    end.
Proof.
  intros Hn Hb. unfold Regex.lit_lazy_lit, format_of.
  assert (Hp : no_braces (name +:+ ":") = true) by (by apply no_braces_app).
  revert Hp. generalize (name +:+ ":"). intros p Hp.
  change (Str.starts_with ("{{" +:+ p) (piece_text (PBraced body) +:+ x))
    with (Str.starts_with p ((body +:+ "}}") +:+ x)).
  change (Str.drop (String.length ("{{" +:+ p)) (piece_text (PBraced body) +:+ x))
    with (Str.drop (String.length p) ((body +:+ "}}") +:+ x)).
  rewrite append_assoc. change ("}}" +:+ x) with (String "}" (String "}" x)).
  rewrite starts_with_body by done.
  destruct (Str.starts_with p body) eqn:Es; [|done].
  pose proof (starts_with_drop p body Es) as Ebody.
  revert Ebody. generalize (Str.drop (String.length p) body). intros f ->.
  apply no_braces_app in Hb as [_ Hf].
  rewrite append_assoc, !drop_length_app, lazy_dots_until_body by done.
  destruct (Str.all _ f); simpl; [|done].
  do 2 f_equal. rewrite !length_append. simpl. rewrite ?length_append. simpl. lia.
Qed.

Section ReplaceFormats.

Variable good : piece → Prop.
Hypothesis good_text : ∀ s, good (PText s) → lone_braces s = true.
Hypothesis good_body : ∀ body, good (PBraced body) → no_braces body = true.

(** The replacement of [{{name:FORMAT}}] by a function of the format. *)
Lemma replace_lazy_pieces (name : string) (f : string → string) (pieces : list piece) :
  no_braces name = true →
  Forall good pieces →
  Regex.replace_all (Regex.lit_lazy_lit ("{{" +:+ name +:+ ":") "}}") (Regex.by_group1 f)
    (flatten_pieces piece_text pieces)
  = flatten_pieces piece_text (map (sub_piece (λ body, f <$> format_of name body)) pieces).
Proof.
  intros Hn Hpieces. unfold Regex.replace_all.
  apply (replace_from_pieces _ _ _ good); [done| | |done| |done].
  - intros c x Hc. by apply lit_lazy_lit_text.
  - intros d x Hd. unfold Regex.lit_lazy_lit. simpl.
    rewrite Ascii.eqb_sym in Hd. by rewrite Hd.
  - intros body x before Hg. pose proof (good_body body Hg) as Hb.
    pose proof (lit_lazy_lit_braced name body x Hn Hb) as Hm.
    cbn [sub_piece]. destruct (format_of name body) as [fmt|]; cbn [fmap option_fmap option_map].
    + destruct (replace_from_match _ (Regex.by_group1 f)
                  (piece_text (PBraced body)) x before [fmt] ltac:(done) Hm)
        as [before' E].
      exists before'. exact E.
    + apply replace_from_pass; try done.
      * intros c y Hc. by apply lit_lazy_lit_text.
      * intros d y Hd. unfold Regex.lit_lazy_lit. simpl.
        rewrite Ascii.eqb_sym in Hd. by rewrite Hd.
Qed.

End ReplaceFormats.

Lemma token_text_name (t : token) : token_text t = "{{" +:+ token_name t +:+ "}}".
Proof. by destruct t. Qed.

Lemma token_name_no_braces (t : token) : no_braces (token_name t) = true.
Proof. by destruct t. Qed.

Lemma all_rules_complete (k : rule) : In k all_rules.
Proof. destruct k as [| | | |[]]; simpl; tauto. Qed.

(** [fill_template] is its replacements, one after the other. *)
Lemma fill_template_rules (getDate : string → string) (template : string)
    (p : StructuredPaperData) :
  fill_template getDate template p
  = foldl (λ s k, replace_rule getDate p k s) template all_rules.
Proof. reflexivity. Qed.

Lemma includes_lone (q s x : string) :
  lone_braces s = true →
  Str.includes (String "{" (String "{" q)) (s +:+ x)
  = Str.includes (String "{" (String "{" q)) x.
Proof.
  induction s as [|c s IH]; [done|].
  intros [Hc Hs]%andb_true_iff. specialize (IH Hs).
  change (Str.includes (String "{" (String "{" q)) (String c s +:+ x))
    with (Str.starts_with (String "{" (String "{" q)) (String c (s +:+ x))
          || Str.includes (String "{" (String "{" q)) (s +:+ x)).
  rewrite IH. clear IH.
  enough (Str.starts_with (String "{" (String "{" q)) (String c (s +:+ x)) = false)
    as -> by done.
  simpl. destruct (Ascii.eqb "{" c) eqn:Ec; [|done].
  apply Ascii.eqb_eq in Ec as <-. destruct s as [|d s]; [done|].
  simpl in Hc |- *. apply negb_true_iff in Hc.
  rewrite Ascii.eqb_sym in Hc. by rewrite Hc.
Qed.

(** No [{{name}}] in a text made of pieces among which it is not. *)
Lemma includes_pieces (name : string) (pieces : list piece) :
  no_braces name = true →
  Forall (λ g, match g with
               | PText s => lone_braces s = true
               | PBraced body => no_braces body = true ∧ body ≠ name
               end) pieces →
  Str.includes ("{{" +:+ name +:+ "}}") (flatten_pieces piece_text pieces) = false.
Proof.
  intros Hn. induction 1 as [|g pieces Hg _ IH]; [done|].
  cbn [flatten_pieces]. destruct g as [s|body].
  - change (piece_text (PText s)) with s.
    change ("{{" +:+ name +:+ "}}") with (String "{" (String "{" (name +:+ "}}"))) in *.
    by rewrite includes_lone.
  - destruct Hg as [Hb Hne].
    change (piece_text (PBraced body) +:+ flatten_pieces piece_text pieces)
      with (String "{" (String "{" (body +:+ "}}") +:+ flatten_pieces piece_text pieces)).
    change ("{{" +:+ name +:+ "}}") with (String "{" (String "{" (name +:+ "}}"))) in *.
    change (Str.includes (String "{" (String "{" (name +:+ "}}")))
              (String "{" (String "{" (body +:+ "}}")
                           +:+ flatten_pieces piece_text pieces)))
      with (Str.starts_with (name +:+ "}}")
              ((body +:+ "}}") +:+ flatten_pieces piece_text pieces)
            || Str.includes (String "{" (String "{" (name +:+ "}}")))
                 (String "{" (body +:+ "}}") +:+ flatten_pieces piece_text pieces)).
    rewrite starts_with_name by done.
    rewrite includes_lone by (by apply lone_braces_body).
    rewrite IH, orb_false_r. by apply String.eqb_neq.
Qed.

Section RenderPieces.

Variable getDate : string → string.
Variable p : StructuredPaperData.

Lemma piece_ok_text (s : string) :
  piece_ok getDate p (PText s) = true → lone_braces s = true.
Proof. done. Qed.

Lemma piece_ok_body (body : string) :
  piece_ok getDate p (PBraced body) = true → no_braces body = true.
Proof. by intros [? _]%andb_true_iff. Qed.

Lemma piece_ok_value (k : rule) (body v : string) :
  piece_ok getDate p (PBraced body) = true →
  rule_value getDate p k body = Some v →
  value_ok k v = true.
Proof.
  intros [_ Hall]%andb_true_iff Hv. rewrite forallb_forall in Hall.
  specialize (Hall k (all_rules_complete k)). by rewrite Hv in Hall.
Qed.

Lemma piece_ok_string_value (k : rule) (body v : string) :
  by_replacement_string k = true →
  rule_value getDate p k body = Some v →
  piece_ok getDate p (PBraced body) = true →
  no_dollar_pattern v = true.
Proof.
  intros Hk Hv Hg. pose proof (piece_ok_value k body v Hg Hv) as H.
  unfold value_ok in H. rewrite Hk in H. by apply andb_true_iff in H as [_ ?].
Qed.

(** One replacement, on a template made of pieces. *)
Lemma replace_rule_pieces (k : rule) (pieces : list piece) :
  Forall (λ g, piece_ok getDate p g = true) pieces →
  replace_rule getDate p k (flatten_pieces piece_text pieces)
  = flatten_pieces piece_text (map (sub_piece (rule_value getDate p k)) pieces).
Proof.
  intros Hpieces. destruct k as [| | | |t]; cbn [replace_rule].
  - apply (replace_lit_pieces (λ g, piece_ok getDate p g = true) piece_ok_text piece_ok_body "date"); [done| |done].
    by apply (piece_ok_string_value RDate).
  - apply (replace_lit_pieces (λ g, piece_ok getDate p g = true) piece_ok_text piece_ok_body "time"); [done| |done].
    by apply (piece_ok_string_value RTime).
  - by apply (replace_lazy_pieces (λ g, piece_ok getDate p g = true) piece_ok_text piece_ok_body "date").
  - by apply (replace_lazy_pieces (λ g, piece_ok getDate p g = true) piece_ok_text piece_ok_body "time").
  - unfold replace_token, rule_value.
    destruct (token_value p t) as [v|] eqn:Ev.
    + rewrite token_text_name.
      apply (replace_lit_pieces (λ g, piece_ok getDate p g = true) piece_ok_text piece_ok_body);
        [apply token_name_no_braces| |done].
      apply (piece_ok_string_value (RToken t)); [done|].
      simpl. by rewrite String.eqb_refl.
    + rewrite sub_piece_none; [done|]. intros body. by destruct (String.eqb _ _).
Qed.

Lemma piece_ok_sub (k : rule) (g : piece) :
  piece_ok getDate p g = true →
  piece_ok getDate p (sub_piece (rule_value getDate p k) g) = true.
Proof.
  destruct g as [s|body]; [done|]. intros Hg. cbn [sub_piece].
  destruct (rule_value getDate p k body) as [v|] eqn:Ev; [|done].
  pose proof (piece_ok_value k body v Hg Ev) as H.
  by apply andb_true_iff in H as [? _].
Qed.

Lemma sub_pieces_text (ks : list rule) (s : string) :
  sub_pieces getDate p ks (PText s) = PText s.
Proof. induction ks as [|k ks IH]; [done|]. apply IH. Qed.

Lemma sub_pieces_braced (ks : list rule) (body : string) :
  sub_pieces getDate p ks (PBraced body)
  = match first_value getDate p ks body with
    | Some v => PText v
    | None => PBraced body
    end.
Proof.
  induction ks as [|k ks IH]; [done|].
  unfold sub_pieces. cbn [foldl sub_piece first_value].
  destruct (rule_value getDate p k body) as [v|]; [apply sub_pieces_text | apply IH].
Qed.

Lemma replace_rules_pieces (ks : list rule) (pieces : list piece) :
  Forall (λ g, piece_ok getDate p g = true) pieces →
  foldl (λ s k, replace_rule getDate p k s) (flatten_pieces piece_text pieces) ks
  = flatten_pieces piece_text (map (sub_pieces getDate p ks) pieces).
Proof.
  revert pieces. induction ks as [|k ks IH]; intros pieces Hpieces.
  - by rewrite map_id.
  - cbn [foldl]. rewrite replace_rule_pieces by done.
    rewrite IH, map_map; [done|].
    apply Forall_map. eapply Forall_impl; [exact Hpieces|].
    intros g Hg. by apply piece_ok_sub.
Qed.

Lemma first_value_Some (ks : list rule) (body v : string) :
  first_value getDate p ks body = Some v →
  ∃ k, rule_value getDate p k body = Some v.
Proof.
  induction ks as [|k ks IH]; [done|]. simpl.
  destruct (rule_value getDate p k body) as [v'|] eqn:Ev; [|done].
  intros [= <-]. eauto.
Qed.

Lemma first_value_None (ks : list rule) (body : string) (k : rule) :
  first_value getDate p ks body = None →
  In k ks → rule_value getDate p k body = None.
Proof.
  induction ks as [|k' ks IH]; [done|]. simpl.
  destruct (rule_value getDate p k' body) as [v'|] eqn:Ev; [done|].
  intros Hks [-> | Hin]; [done | by apply IH].
Qed.

Lemma flatten_pieces_rendered (pieces : list piece) :
  flatten_pieces piece_text (map (sub_pieces getDate p all_rules) pieces)
  = flatten_pieces (render_piece getDate p) pieces.
Proof.
  induction pieces as [|g pieces IH]; [done|].
  cbn [map flatten_pieces]. rewrite IH. f_equal.
  destruct g as [s|body]; [by rewrite sub_pieces_text|].
  rewrite sub_pieces_braced. unfold render_piece.
  by destruct (first_value getDate p all_rules body).
Qed.

(** C5 (as amended): for a template made of text in which no opening
    brace is followed by another or ends the text, and of pieces
    [{{body}}] without braces in the body (date and time tokens, tokens of
    the paper, and [{{...}}] that the renderer does not know), and for a
    paper and a clock such that the value of each token that occurs has no
    opening brace followed by another or ending it, and, where the value is
    passed as a replacement string, no [$$], [$&], [$`] or [$']: the
    rendered note is the template with each token replaced by its value and
    everything else as it is ([{{citekey}}] is kept when the citekey is
    empty), and it contains no metadata token. *)
Theorem fill_template_leaves_no_metadata_token (pieces : list piece) :
  forallb (piece_ok getDate p) pieces = true →
  fill_template getDate (flatten_pieces piece_text pieces) p
  = flatten_pieces (render_piece getDate p) pieces ∧
  ∀ t, metadata_token t = true →
       Str.includes (token_text t)
         (fill_template getDate (flatten_pieces piece_text pieces) p) = false.
Proof.
  intros Hpieces.
  assert (Hok : Forall (λ g, piece_ok getDate p g = true) pieces).
  { apply Forall_forall. intros g Hg. rewrite forallb_forall in Hpieces.
    apply Hpieces. by apply list_elem_of_In. }
  rewrite fill_template_rules, replace_rules_pieces by done.
  split; [apply flatten_pieces_rendered|].
  intros t Ht. rewrite token_text_name.
  apply includes_pieces; [apply token_name_no_braces|].
  apply Forall_map. eapply Forall_impl; [exact Hok|].
  intros [s|body] Hg; cbn beta.
  - by rewrite sub_pieces_text.
  - rewrite sub_pieces_braced.
    destruct (first_value getDate p all_rules body) as [v|] eqn:Ev.
    + destruct (first_value_Some _ _ _ Ev) as [k Hk].
      pose proof (piece_ok_value k body v Hg Hk) as H.
      by apply andb_true_iff in H as [? _].
    + split; [by apply piece_ok_body|]. intros ->.
      pose proof (first_value_None _ _ (RToken t) Ev (all_rules_complete _)) as H.
      simpl in H. rewrite String.eqb_refl in H. by destruct t.
Qed.

End RenderPieces.

Lemma fill_template_leaves_no_metadata_token_witness :
  forallb (piece_ok example_clock (with_title attention "Pay $5 {now}"))
    dated_template = true ∧
  fill_template example_clock "# {{title}} {read {{date}}} {{citekey}} {{rating}}"
    (with_title attention "Pay $5 {now}")
  = "# Pay $5 {now} {read <YYYY-MM-DD>} {{citekey}} {{rating}}" ∧
  ∀ t, metadata_token t = true →
       Str.includes (token_text t)
         (fill_template example_clock
            "# {{title}} {read {{date}}} {{citekey}} {{rating}}"
            (with_title attention "Pay $5 {now}")) = false.
Proof.
  split; [reflexivity|].
  apply (fill_template_leaves_no_metadata_token example_clock
           (with_title attention "Pay $5 {now}") dated_template).
  reflexivity.
Defined.

(** Each condition of the amended C5 excludes templates and papers on
    which the rendered note does hold a metadata token, or a value is
    scanned again: a value with one of the patterns of a replacement
    string, a value that ends with an opening brace, a text that ends with
    an opening brace, and a body with braces. *)
Lemma fill_template_conditions_are_needed :
  fill_template example_clock "{{title}}" (with_title attention "$&") = "{{title}}" ∧
  fill_template example_clock "{{title}}{abstract}}" (with_title attention "{")
  = "The dominant sequence transduction models" ∧
  fill_template example_clock "{{{abstract}}}}" (with_abstract attention "{title")
  = "{{title}}" ∧
  fill_template example_clock "{{t{{title}}le}}" (with_title attention "it")
  = "{{title}}".
Proof. split_and!; reflexivity. Qed.
